(** * CompareDoc: the segmentation and comparison engine of [app.py]

    A shallow embedding of [segment_document] and [compare_segments]
    together with the string primitives of Python they rest on.

    Modelling conventions.
    - A Python [str] is a [string]; its characters are the code points
      0..255, so every character class of Python ([str.isspace], the
      line boundaries of [str.splitlines], [\s] and [\d] of [re],
      [str.lower]) is the restriction of the Unicode one to that range.
    - A Python [dict] is an association list in insertion order in which
      every key occurs once: assigning to a key that is present keeps
      its position, assigning to a new key appends it.
    - An exception is [None] in an [option]; the chat completion service
      is a transition on an abstract world that may fail. *)

From Stdlib Require Import String Ascii List ZArith Bool Arith Lia.
Import ListNotations.

Local Open Scope string_scope.
Local Open Scope list_scope.

(** ** Characters *)

Module PyChar.

Definition code (c : ascii) : nat := nat_of_ascii c.

Definition between (lo hi : nat) (c : ascii) : bool :=
  (lo <=? code c)%nat && (code c <=? hi)%nat.

(** [str.isspace] on one character: TAB, LF, VT, FF, CR, FS, GS, RS, US,
    SPACE, NEL and NBSP. *)
Definition is_space (c : ascii) : bool :=
  between 9 13 c || between 28 32 c
  || (code c =? 133)%nat || (code c =? 160)%nat.

(** The line boundaries of [str.splitlines]: LF, VT, FF, CR, FS, GS, RS
    and NEL. *)
Definition is_linebreak (c : ascii) : bool :=
  between 10 13 c || between 28 30 c || (code c =? 133)%nat.

(** The white space that [int] skips around a number: the C white space
    TAB, LF, VT, FF, CR and SPACE, and the two white space characters
    above U+007F, NEL and NBSP, which [int] turns into spaces first.
    FS, GS, RS and US are not skipped. *)
Definition is_int_space (c : ascii) : bool :=
  between 9 13 c || (code c =? 32)%nat
  || (code c =? 133)%nat || (code c =? 160)%nat.

(** [\d] of [re]: the decimal digits. *)
Definition is_digit (c : ascii) : bool := between 48 57 c.

(** [[A-Z]] and [[A-Za-z]]. *)
Definition is_upper (c : ascii) : bool := between 65 90 c.
Definition is_alpha (c : ascii) : bool := between 65 90 c || between 97 122 c.

(** [str.lower] on one character: A-Z and the capital letters
    U+00C0..U+00DE other than the multiplication sign. *)
Definition lower (c : ascii) : ascii :=
  if between 65 90 c
     || (between 192 222 c && negb (code c =? 215)%nat)
  then ascii_of_nat (code c + 32)
  else c.

Definition LF : ascii := ascii_of_nat 10.
Definition CR : ascii := ascii_of_nat 13.

End PyChar.

(** ** Strings *)

Module PyStr.

Definition nl : string := String PyChar.LF EmptyString.

Definition is_empty (s : string) : bool :=
  match s with EmptyString => true | String _ _ => false end.

(** [str.lstrip()], [str.rstrip()] and [str.strip()]. *)
Fixpoint lstrip (s : string) : string :=
  match s with
  | EmptyString => EmptyString
  | String c s' => if PyChar.is_space c then lstrip s' else s
  end.

Fixpoint rstrip (s : string) : string :=
  match s with
  | EmptyString => EmptyString
  | String c s' =>
      let r := rstrip s' in
      if PyChar.is_space c && is_empty r then EmptyString else String c r
  end.

Definition strip (s : string) : string := rstrip (lstrip s).

(** [str.lower()]. *)
Fixpoint lower (s : string) : string :=
  match s with
  | EmptyString => EmptyString
  | String c s' => String (PyChar.lower c) (lower s')
  end.

(** [s.startswith(p)]. *)
Fixpoint startswith (s p : string) : bool :=
  match p, s with
  | EmptyString, _ => true
  | String _ _, EmptyString => false
  | String a p', String b s' => Ascii.eqb a b && startswith s' p'
  end.

(** [sep.join(parts)]. *)
Fixpoint join (sep : string) (parts : list string) : string :=
  match parts with
  | [] => EmptyString
  | [p] => p
  | p :: rest => p ++ sep ++ join sep rest
  end.

(** [str.splitlines()]: the text is cut at every line boundary, CR LF
    counting as one; a boundary that ends the text opens no further
    line, and the empty text has no line. [lines_from s] is the list of
    lines of a text that still has a line to deliver. *)
Fixpoint lines_from (s : string) : list string :=
  match s with
  | EmptyString => [EmptyString]
  | String c s' =>
      if PyChar.is_linebreak c then
        EmptyString ::
          match s' with
          | EmptyString => []
          | String d s'' =>
              if Ascii.eqb c PyChar.CR && Ascii.eqb d PyChar.LF then
                match s'' with
                | EmptyString => []
                | String _ _ => lines_from s''
                end
              else lines_from s'
          end
      else
        match lines_from s' with
        | l :: ls => String c l :: ls
        | [] => [String c EmptyString]
        end
  end.

Definition splitlines (s : string) : list string :=
  match s with
  | EmptyString => []
  | String _ _ => lines_from s
  end.

(** [s.split(":", 1)]: one element when [s] has no colon, two
    otherwise. *)
Fixpoint split_colon_once (s : string) : list string :=
  match s with
  | EmptyString => [EmptyString]
  | String c s' =>
      if Ascii.eqb c ":" then [EmptyString; s']
      else match split_colon_once s' with
           | h :: t => String c h :: t
           | [] => [String c EmptyString]
           end
  end.

(** [s.replace('%', '')]. *)
Fixpoint remove_percent (s : string) : string :=
  match s with
  | EmptyString => EmptyString
  | String c s' =>
      if Ascii.eqb c "%" then remove_percent s' else String c (remove_percent s')
  end.

(** [int(s)] in base ten: surrounding white space (that of
    [PyChar.is_int_space], which is narrower than the one [str.strip]
    removes), an optional sign, then digits in which single underscores
    may separate digits. [None] is [ValueError]. The number of digits
    is bounded by [int_max_str_digits], the default of
    [sys.int_max_str_digits]. *)
Definition int_max_str_digits : nat := 4300.

Fixpoint int_lstrip (s : string) : string :=
  match s with
  | EmptyString => EmptyString
  | String c s' => if PyChar.is_int_space c then int_lstrip s' else s
  end.

Fixpoint int_rstrip (s : string) : string :=
  match s with
  | EmptyString => EmptyString
  | String c s' =>
      let r := int_rstrip s' in
      if PyChar.is_int_space c && is_empty r then EmptyString else String c r
  end.

Definition digit_value (c : ascii) : Z := Z.of_nat (PyChar.code c - 48).

Fixpoint digits_value (acc : Z) (after_digit : bool) (s : string) : option Z :=
  match s with
  | EmptyString => if after_digit then Some acc else None
  | String c s' =>
      if PyChar.is_digit c then
        digits_value (10 * acc + digit_value c) true s'
      else if Ascii.eqb c "_" then
        if after_digit then digits_value acc false s' else None
      else None
  end.

Fixpoint count_digits (s : string) : nat :=
  match s with
  | EmptyString => 0
  | String c s' =>
      if PyChar.is_digit c then S (count_digits s') else count_digits s'
  end.

Definition unsigned_int (s : string) : option Z :=
  if (int_max_str_digits <? count_digits s)%nat then None
  else digits_value 0 false s.

Definition int (s : string) : option Z :=
  match int_rstrip (int_lstrip s) with
  | String "-" body => option_map Z.opp (unsigned_int body)
  | String "+" body => unsigned_int body
  | body => unsigned_int body
  end.

End PyStr.

(** ** Dictionaries *)

Module PyDict.

Definition dict (V : Type) : Type := list (string * V).

Definition keys {V} (d : dict V) : list string := map fst d.
Definition values {V} (d : dict V) : list V := map snd d.

(** [d.get(k)]. *)
Fixpoint get {V} (d : dict V) (k : string) : option V :=
  match d with
  | [] => None
  | (k', v) :: d' => if String.eqb k' k then Some v else get d' k
  end.

(** [d.get(k, default)]. *)
Definition get_default {V} (d : dict V) (k : string) (default : V) : V :=
  match get d k with Some v => v | None => default end.

(** [d[k] = v]. *)
Fixpoint set {V} (d : dict V) (k : string) (v : V) : dict V :=
  match d with
  | [] => [(k, v)]
  | (k', v') :: d' =>
      if String.eqb k' k then (k', v) :: d' else (k', v') :: set d' k v
  end.

(** [{k: f(v) for k, v in d.items()}]. *)
Definition map_values {V W} (f : V -> W) (d : dict V) : dict W :=
  map (fun kv => (fst kv, f (snd kv))) d.

(** Every key occurs once. *)
Definition wf {V} (d : dict V) : Prop := NoDup (keys d).

End PyDict.

(** ** Segmentation *)

(** [re.match(r"^\s*\d+\.", s)]. *)
Fixpoint digits_then_dot (s : string) : bool :=
  match s with
  | EmptyString => false
  | String c s' =>
      PyChar.is_digit c
      && match s' with
         | String "." _ => true
         | _ => digits_then_dot s'
         end
  end.

Definition numbered_heading (s : string) : bool :=
  digits_then_dot (PyStr.lstrip s).

(** [re.match(r"^[A-Z][A-Za-z\s]+:$", s)]; [$] is the end of the string
    or the place before a line feed that ends it. *)
Definition title_char (c : ascii) : bool :=
  PyChar.is_alpha c || PyChar.is_space c.

Definition colon_at_end (s : string) : bool :=
  String.eqb s ":" || String.eqb s (":" ++ PyStr.nl).

Fixpoint title_body (s : string) : bool :=
  match s with
  | EmptyString => false
  | String c s' => title_char c && (colon_at_end s' || title_body s')
  end.

Definition titled_heading (s : string) : bool :=
  match s with
  | EmptyString => false
  | String c s' => PyChar.is_upper c && title_body s'
  end.

(** The test of the loop of [segment_document] on one line. *)
Definition is_heading (line : string) : bool :=
  numbered_heading (PyStr.strip line) || titled_heading (PyStr.strip line).

Definition SegmentMap : Type := PyDict.dict string.

(** The loop of [segment_document]: [segments] maps a section to the
    lines collected for it, [current_section] is the section that
    receives the next line. [None] is the [KeyError] of
    [segments[current_section].append(line)]. *)
Fixpoint segment_loop (lines : list string)
    (segments : PyDict.dict (list string)) (current_section : string)
    : option (PyDict.dict (list string)) :=
  match lines with
  | [] => Some segments
  | line :: rest =>
      let '(segments1, current1) :=
        if is_heading line
        then (PyDict.set segments (PyStr.strip line) [], PyStr.strip line)
        else (segments, current_section) in
      match PyDict.get segments1 current1 with
      | None => None
      | Some buffer =>
          segment_loop rest (PyDict.set segments1 current1 (buffer ++ [line]))
            current1
      end
  end.

(** The dictionary of line buffers that the loop leaves. *)
Definition segment_buffers (text : string)
    : option (PyDict.dict (list string)) :=
  segment_loop (PyStr.splitlines text) [("Header", [])] "Header".

Definition segment_document (text : string) : option SegmentMap :=
  option_map (PyDict.map_values (PyStr.join PyStr.nl)) (segment_buffers text).

(** The lines that follow a heading up to the next heading candidate. *)
Fixpoint body_lines (lines : list string) : list string :=
  match lines with
  | [] => []
  | line :: rest => if is_heading line then [] else line :: body_lines rest
  end.

(** ** Comparison *)

Record ComparisonRecord : Type := mkRecord {
  template : string;
  filled : string;
  status : string;
  analysis : string;
  remediation : string;
  match_percent : Z
}.

Definition ComparisonReport : Type := PyDict.dict ComparisonRecord.

(** The four variables [status], [reason], [remediation] and
    [match_percent] that every branch of [compare_segments] assigns. *)
Record Judgment : Type := mkJudgment {
  j_status : string;
  j_reason : string;
  j_remediation : string;
  j_match_percent : Z
}.

Definition missing_judgment : Judgment :=
  mkJudgment "Missing"
    "This section is missing in the filled document."
    "Please provide content for this section."
    0.

Definition sufficient_judgment : Judgment :=
  mkJudgment "Sufficient"
    "This section is sufficiently filled and matches the template."
    "None needed."
    100.

(** The values before the lines of the response are read. *)
Definition initial_judgment : Judgment := mkJudgment "Other Issue" "" "" 0.

(** The three values that the request asks the service to choose from. *)
Definition oracle_taxonomy : list string :=
  ["Sufficient"; "Lacking Information"; "Other Issue"].

(** [line.split(":", 1)[1].strip()]; [None] is [IndexError]. *)
Definition field_text (line : string) : option string :=
  match PyStr.split_colon_once line with
  | _ :: v :: _ => Some (PyStr.strip v)
  | _ => None
  end.

(** The [try] block of the match percentage branch: whatever is raised
    inside it gives 0. *)
Definition percent_of (line : string) : Z :=
  match field_text line with
  | Some v =>
      match PyStr.int (PyStr.remove_percent v) with
      | Some n => n
      | None => 0%Z
      end
  | None => 0%Z
  end.

(** The body of the loop over the lines of the response. *)
Definition parse_line (j : Judgment) (line : string) : option Judgment :=
  let low := PyStr.lower line in
  if PyStr.startswith low "status:" then
    option_map
      (fun v => mkJudgment v (j_reason j) (j_remediation j) (j_match_percent j))
      (field_text line)
  else if PyStr.startswith low "reason:" then
    option_map
      (fun v => mkJudgment (j_status j) v (j_remediation j) (j_match_percent j))
      (field_text line)
  else if PyStr.startswith low "remediation:" then
    option_map
      (fun v => mkJudgment (j_status j) (j_reason j) v (j_match_percent j))
      (field_text line)
  else if PyStr.startswith low "match percentage:" then
    Some (mkJudgment (j_status j) (j_reason j) (j_remediation j)
            (percent_of line))
  else Some j.

Fixpoint parse_lines (lines : list string) (j : Judgment) : option Judgment :=
  match lines with
  | [] => Some j
  | line :: rest =>
      match parse_line j line with
      | None => None
      | Some j' => parse_lines rest j'
      end
  end.

Definition parse_response (lines : list string) : option Judgment :=
  parse_lines lines initial_judgment.

(** [if not remediation: remediation = "None provided."]. *)
Definition default_remediation (j : Judgment) : Judgment :=
  if PyStr.is_empty (j_remediation j)
  then mkJudgment (j_status j) (j_reason j) "None provided."
         (j_match_percent j)
  else j.

(** The four fields a line of the response can set, with the prefix
    that selects each. *)
Inductive Field : Type := Status | Reason | Remediation | MatchPercentage.

Inductive FieldValue : Type :=
| Text (s : string)
| Number (n : Z).

Definition field_prefix (f : Field) : string :=
  match f with
  | Status => "status:"
  | Reason => "reason:"
  | Remediation => "remediation:"
  | MatchPercentage => "match percentage:"
  end.

Definition has_prefix (f : Field) (line : string) : bool :=
  PyStr.startswith (PyStr.lower line) (field_prefix f).

Definition field_value (f : Field) (j : Judgment) : FieldValue :=
  match f with
  | Status => Text (j_status j)
  | Reason => Text (j_reason j)
  | Remediation => Text (j_remediation j)
  | MatchPercentage => Number (j_match_percent j)
  end.

(** The text of the user message sent to the chat completion service. *)
Definition prompt (content filled_content : string) : string :=
  "You are a document comparison expert. "
  ++ "Compare the following two sections and classify the filled section as one of: "
  ++ "'Sufficient', 'Lacking Information', or 'Other Issue'. "
  ++ "Then, explain your reasoning in 1-2 sentences. "
  ++ "If the status is not 'Sufficient', provide a specific remediation suggestion for how to improve the filled section. "
  ++ "Finally, estimate a match percentage (0-100) for how well the filled section aligns with the template, "
  ++ "where 100 means a perfect match and 0 means no alignment at all. "
  ++ "Respond in this format:" ++ PyStr.nl
  ++ "Status: <Sufficient/Lacking Information/Other Issue>" ++ PyStr.nl
  ++ "Reason: <your explanation>" ++ PyStr.nl
  ++ "Remediation: <your suggestion or 'None needed'>" ++ PyStr.nl
  ++ "Match Percentage: <number between 0 and 100>" ++ PyStr.nl ++ PyStr.nl
  ++ "Template:" ++ PyStr.nl ++ content ++ PyStr.nl ++ PyStr.nl
  ++ "Filled:" ++ PyStr.nl ++ filled_content.

(** One request to the service, as the run remembers it: the section it
    was made for, the user message and the text of the answer. *)
Record Call : Type := mkCall {
  call_section : string;
  call_prompt : string;
  call_response : string
}.

Section Comparator.

(** The chat completion service: a request in a state of the world
    gives the content of the first choice and the next state, or
    fails ([None]: the exception leaves [compare_segments]). The
    system message, the model and the temperature are the same in
    every request and are left out. *)
Variable World : Type.
Variable chat_completion : World -> string -> option (string * World).

(** The state of a run: the report built so far, the requests made so
    far (kept to count them; the program does not store them) and the
    world. *)
Record Run : Type := mkRun {
  comparison : ComparisonReport;
  calls : list Call;
  world : World
}.

(** The three branches of the loop body. *)
Definition judge (section content filled_content : string) (st : Run)
    : option (Judgment * Run) :=
  if PyStr.is_empty (PyStr.strip filled_content) then
    Some (missing_judgment, st)
  else if String.eqb (PyStr.strip filled_content) (PyStr.strip content) then
    Some (sufficient_judgment, st)
  else
    match chat_completion (world st) (prompt content filled_content) with
    | None => None
    | Some (analysis_full, w') =>
        match parse_response (PyStr.splitlines analysis_full) with
        | None => None
        | Some j =>
            Some (default_remediation j,
                  mkRun (comparison st)
                    (calls st
                     ++ [mkCall section (prompt content filled_content)
                           analysis_full])
                    w')
        end
    end.

Definition record_of (content filled_content : string) (j : Judgment)
    : ComparisonRecord :=
  mkRecord content filled_content (j_status j) (j_reason j)
    (j_remediation j) (j_match_percent j).

Fixpoint compare_loop (items : list (string * string)) (filled_map : SegmentMap)
    (st : Run) : option Run :=
  match items with
  | [] => Some st
  | (section, content) :: rest =>
      let filled_content := PyDict.get_default filled_map section "" in
      match judge section content filled_content st with
      | None => None
      | Some (j, st1) =>
          compare_loop rest filled_map
            (mkRun
               (PyDict.set (comparison st1) section
                  (record_of content filled_content j))
               (calls st1) (world st1))
      end
  end.

Definition compare_segments (template_map filled_map : SegmentMap)
    (w : World) : option Run :=
  compare_loop template_map filled_map (mkRun [] [] w).

(** No request of the run was made for [section]. *)
Definition not_asked (section : string) (r : Run) : Prop :=
  forall c, In c (calls r) -> call_section c <> section.

End Comparator.

Arguments mkRun {World}.
Arguments comparison {World}.
Arguments calls {World}.
Arguments world {World}.
Arguments judge {World}.
Arguments compare_loop {World}.
Arguments compare_segments {World}.
Arguments not_asked {World}.

(** ** Services used in the examples *)

(** A service that gives the same answer to every request. *)
Definition scripted (response : string) (w : unit) (request : string)
    : option (string * unit) :=
  Some (response, w).

(** A service that is never reachable. *)
Definition unreachable (w : unit) (request : string) : option (string * unit) :=
  None.

Definition unlines (lines : list string) : string := PyStr.join PyStr.nl lines.

(** The texts of the end-to-end scenario: the template, a filled text
    that repeats the first section and has no second one, and a filled
    text that keeps the second heading with nothing under it. *)
Definition scenario_template : string :=
  unlines ["1. Scope:"; "Describe the work."; "2. Budget:"; "State the amount."].

Definition scenario_filled : string :=
  unlines ["1. Scope:"; "Describe the work."].

Definition scenario_filled_bare_heading : string :=
  unlines ["1. Scope:"; "Describe the work."; "2. Budget:"].

(** A text in which the heading [Summary:] occurs twice. *)
Definition repeated_summary : string :=
  unlines ["Summary:"; "first draft"; "Details:"; "body"; "Summary:"; "final"].

(** A text whose sections all have different headings and that starts
    with a line that is no heading, and a text without any heading. *)
Definition prefaced_text : string :=
  unlines ["Preface"; "1. Scope:"; "Describe the work."; "Notes:"; "none"].

Definition plain_text : string :=
  unlines ["just some text"; "without any heading"].

(** A template and a filled document, as segment maps: the filled one
    repeats [Header] up to white space, changes [1. Scope:] and leaves
    [2. Budget:] blank. *)
Definition demo_template : SegmentMap :=
  [("Header", "Form A");
   ("1. Scope:", unlines ["1. Scope:"; "Describe the work."]);
   ("2. Budget:", unlines ["2. Budget:"; "State the amount."])].

Definition demo_filled : SegmentMap :=
  [("Header", " Form A ");
   ("1. Scope:", unlines ["1. Scope:"; "We paint the fence."]);
   ("2. Budget:", "   ")].

(** Answers of the service. *)
Definition answer_regular : string :=
  unlines ["Status: Lacking Information"; "Reason: No schedule is given.";
           "Remediation: Add the dates."; "Match Percentage: 85%"].

Definition answer_unrecognized : string :=
  unlines ["Status: Great"; "Reason: Looks fine."; "Match Percentage: 150%"].

Definition answer_repeated : string :=
  unlines ["Status: Sufficient"; "Match Percentage: 90";
           "Status: Other Issue"; "Match Percentage: 10"].

Definition answer_missing : string :=
  unlines ["Status: Missing"; "Reason: Nothing relevant is said."].

(** ** Further functions of [app.py] *)

(** The four markers that [status_icon] returns: the check mark, the
    cross, the warning sign and the question mark. *)
Inductive Icon : Type := IconCheck | IconCross | IconWarning | IconQuestion.

Definition status_icon (status : string) : Icon :=
  let status := PyStr.lower status in
  if String.eqb status "sufficient" then IconCheck
  else if String.eqb status "missing" then IconCross
  else if String.eqb status "lacking information" then IconWarning
  else IconQuestion.

(** The options of the status filter of the result view, and its test
    [not selected_filters or result['status'].lower() in
    [f.lower() for f in selected_filters]]. *)
Definition filter_options : list string :=
  ["Missing"; "Lacking Information"; "Sufficient"; "Other Issue"].

Definition shown (selected_filters : list string) (rec : ComparisonRecord) : bool :=
  match selected_filters with
  | [] => true
  | _ :: _ =>
      existsb (String.eqb (PyStr.lower (status rec)))
        (map PyStr.lower selected_filters)
  end.

(** [s.split(".")]: the parts of [s] between its dots, at least one. *)
Fixpoint split_dots (s : string) : list string :=
  match s with
  | EmptyString => [EmptyString]
  | String c s' =>
      if Ascii.eqb c "." then EmptyString :: split_dots s'
      else match split_dots s' with
           | h :: t => String c h :: t
           | [] => [String c EmptyString]
           end
  end.

(** [name.lower().split(".")[-1]]. *)
Definition suffix_of (name : string) : string :=
  last (split_dots (PyStr.lower name)) EmptyString.

Fixpoint has_dot (s : string) : bool :=
  match s with
  | EmptyString => false
  | String c s' => Ascii.eqb c "." || has_dot s'
  end.

Section Upload.

(** An uploaded file and the three readers that [read_uploaded_file]
    hands it to: decoding its bytes as UTF-8, [docx2txt.process] on a
    temporary copy, and the texts that [extract_text] gives for the
    pages of a [PdfReader] (the empty string for a page without text).
    [None] is an exception raised by the reader. *)
Variable File : Type.
Variable file_name : File -> string.
Variable decode_utf8 : File -> option string.
Variable docx2txt_process : File -> option string.
Variable pdf_page_texts : File -> option (list string).

Definition read_uploaded_file (file : File) : option string :=
  let suffix := suffix_of (file_name file) in
  if String.eqb suffix "txt" then decode_utf8 file
  else if String.eqb suffix "docx" then docx2txt_process file
  else if String.eqb suffix "pdf" then
    option_map
      (fun pages =>
         PyStr.join PyStr.nl
           (filter (fun text => negb (PyStr.is_empty text)) pages))
      (pdf_page_texts file)
  else Some EmptyString.

End Upload.

Arguments read_uploaded_file {File}.

(** The step [Compare to Template]: the filled text is segmented and
    compared with the template. *)
Definition compare_to_template {World : Type}
    (chat_completion : World -> string -> option (string * World))
    (template_map : SegmentMap) (filled_text : string) (w : World)
    : option (Run World) :=
  match segment_document filled_text with
  | Some filled_segments =>
      compare_segments chat_completion template_map filled_segments w
  | None => None
  end.

(** ** Notions used to state the properties *)

(** A text of white space only. *)
Fixpoint blank (s : string) : bool :=
  match s with
  | EmptyString => true
  | String c s' => PyChar.is_space c && blank s'
  end.

(** The buffer of a section: lines that are no heading candidates
    under [Header], and elsewhere a heading line whose trimmed text is
    the key, followed by lines that are no heading candidates. *)
Definition section_shape (entry : string * list string) : Prop :=
  (fst entry = "Header" /\ Forall (fun l => is_heading l = false) (snd entry))
  \/ exists line rest,
       snd entry = line :: rest
       /\ is_heading line = true
       /\ PyStr.strip line = fst entry
       /\ Forall (fun l => is_heading l = false) rest.

(** The template sections for which [compare_segments] takes its third
    branch. *)
Definition needs_judgment (filled_map : SegmentMap) (item : string * string) : bool :=
  let filled_content := PyDict.get_default filled_map (fst item) "" in
  negb (PyStr.is_empty (PyStr.strip filled_content))
  && negb (String.eqb (PyStr.strip filled_content) (PyStr.strip (snd item))).

(** A line of the answer that starts with one of the four prefixes. *)
Definition recognized (line : string) : bool :=
  has_prefix Status line || has_prefix Reason line
  || has_prefix Remediation line || has_prefix MatchPercentage line.

(** Every line with a line feed in front of it. *)
Fixpoint concat_lines (lines : list string) : string :=
  match lines with
  | [] => EmptyString
  | line :: rest => PyStr.nl ++ line ++ concat_lines rest
  end.

(** Files and readers used in the examples. *)
Definition reader_of (texts : list (string * string)) (name : string)
    : option string :=
  PyDict.get texts name.

(** How the record of one template section came about: by the missing
    branch, by the exact match branch, or from an answer of the
    service. *)
Inductive Verdict {World : Type} (section content filled_content : string)
    (j : Judgment) (r : Run World) : Prop :=
| verdict_missing :
    PyStr.strip filled_content = "" ->
    j = missing_judgment ->
    not_asked section r ->
    Verdict section content filled_content j r
| verdict_exact :
    PyStr.strip filled_content <> "" ->
    PyStr.strip filled_content = PyStr.strip content ->
    j = sufficient_judgment ->
    not_asked section r ->
    Verdict section content filled_content j r
| verdict_oracle (response : string) (parsed : Judgment) :
    PyStr.strip filled_content <> "" ->
    PyStr.strip filled_content <> PyStr.strip content ->
    In (mkCall section (prompt content filled_content) response) (calls r) ->
    parse_response (PyStr.splitlines response) = Some parsed ->
    j = default_remediation parsed ->
    Verdict section content filled_content j r.

(** ** Dictionaries: lookup after assignment *)

Section DictFacts.

Context {V : Type}.
Implicit Types (d : PyDict.dict V) (k : string) (v : V).

Lemma get_set_same d k v : PyDict.get (PyDict.set d k v) k = Some v.
Proof.
  induction d as [|[k' v'] d IH]; simpl.
  - now rewrite String.eqb_refl.
  - destruct (String.eqb k' k) eqn:E; simpl; now rewrite E.
Qed.

Lemma get_set_other d k k' v :
  k <> k' -> PyDict.get (PyDict.set d k v) k' = PyDict.get d k'.
Proof.
  intros Hne. induction d as [|[k0 v0] d IH]; simpl.
  - destruct (String.eqb k k') eqn:E; [|reflexivity].
    apply String.eqb_eq in E. contradiction.
  - destruct (String.eqb k0 k) eqn:E; simpl.
    + apply String.eqb_eq in E. subst k0.
      destruct (String.eqb k k') eqn:E'; [|reflexivity].
      apply String.eqb_eq in E'. contradiction.
    + now rewrite IH.
Qed.

Lemma get_none_iff d k : PyDict.get d k = None <-> ~ In k (PyDict.keys d).
Proof.
  induction d as [|[k' v'] d IH]; simpl.
  - tauto.
  - destruct (String.eqb k' k) eqn:E.
    + apply String.eqb_eq in E. split; [discriminate | tauto].
    + apply String.eqb_neq in E. rewrite IH. tauto.
Qed.

Lemma get_some_in_keys d k v : PyDict.get d k = Some v -> In k (PyDict.keys d).
Proof.
  intros H. destruct (in_dec string_dec k (PyDict.keys d)) as [?|Hn]; [assumption|].
  apply get_none_iff in Hn. congruence.
Qed.

Lemma set_fresh d k v : ~ In k (PyDict.keys d) -> PyDict.set d k v = d ++ [(k, v)].
Proof.
  induction d as [|[k' v'] d IH]; simpl; intros Hn; [reflexivity|].
  destruct (String.eqb k' k) eqn:E.
  - apply String.eqb_eq in E. tauto.
  - f_equal. apply IH. tauto.
Qed.

Lemma set_last d k v v' :
  ~ In k (PyDict.keys d) -> PyDict.set (d ++ [(k, v)]) k v' = d ++ [(k, v')].
Proof.
  induction d as [|[k0 v0] d IH]; simpl; intros Hn.
  - now rewrite String.eqb_refl.
  - destruct (String.eqb k0 k) eqn:E.
    + apply String.eqb_eq in E. tauto.
    + f_equal. apply IH. tauto.
Qed.

Lemma get_last d k v : ~ In k (PyDict.keys d) -> PyDict.get (d ++ [(k, v)]) k = Some v.
Proof.
  induction d as [|[k0 v0] d IH]; simpl; intros Hn.
  - now rewrite String.eqb_refl.
  - destruct (String.eqb k0 k) eqn:E.
    + apply String.eqb_eq in E. tauto.
    + apply IH. tauto.
Qed.

Lemma keys_set d k v :
  PyDict.keys (PyDict.set d k v)
  = if in_dec string_dec k (PyDict.keys d) then PyDict.keys d
    else PyDict.keys d ++ [k].
Proof.
  induction d as [|[k0 v0] d IH]; simpl.
  - reflexivity.
  - destruct (String.eqb k0 k) eqn:E; simpl.
    + apply String.eqb_eq in E. subst.
      destruct (string_dec k k); [reflexivity | congruence].
    + apply String.eqb_neq in E. rewrite IH.
      destruct (string_dec k0 k); [contradiction|].
      destruct (in_dec string_dec k (PyDict.keys d)); reflexivity.
Qed.

Lemma get_in_wf d k v : PyDict.wf d -> In (k, v) d -> PyDict.get d k = Some v.
Proof.
  unfold PyDict.wf. induction d as [|[k0 v0] d IH]; simpl; intros Hnd Hin.
  - contradiction.
  - inversion Hnd as [|? ? Hnotin Hnd']; subst.
    destruct Hin as [Heq | Hin].
    + inversion Heq; subst. now rewrite String.eqb_refl.
    + destruct (String.eqb k0 k) eqn:E.
      * apply String.eqb_eq in E. subst. exfalso. apply Hnotin.
        change k with (fst (k, v)). now apply in_map.
      * now apply IH.
Qed.

Lemma get_some_in d k v : PyDict.get d k = Some v -> In (k, v) d.
Proof.
  induction d as [|[k0 v0] d IH]; simpl; [discriminate|].
  destruct (String.eqb k0 k) eqn:E.
  - apply String.eqb_eq in E. intros [= ->]. subst. now left.
  - intros H. right. now apply IH.
Qed.

End DictFacts.

Lemma get_map_values {V W} (f : V -> W) (d : PyDict.dict V) k :
  PyDict.get (PyDict.map_values f d) k = option_map f (PyDict.get d k).
Proof.
  induction d as [|[k0 v0] d IH]; simpl; [reflexivity|].
  destruct (String.eqb k0 k); [reflexivity | exact IH].
Qed.

Lemma values_map_values {V W} (f : V -> W) (d : PyDict.dict V) :
  PyDict.values (PyDict.map_values f d) = map f (PyDict.values d).
Proof.
  unfold PyDict.values, PyDict.map_values. rewrite !map_map.
  apply map_ext. reflexivity.
Qed.

(** ** Joining lines *)

Lemma join_cons sep p rest :
  rest <> [] -> PyStr.join sep (p :: rest) = (p ++ sep ++ PyStr.join sep rest)%string.
Proof. destruct rest; [congruence | reflexivity]. Qed.

Lemma string_app_assoc (a b c : string) :
  ((a ++ b) ++ c = a ++ b ++ c)%string.
Proof. induction a; simpl; [reflexivity | now f_equal]. Qed.

Lemma join_app sep l1 l2 :
  l1 <> [] -> l2 <> [] ->
  PyStr.join sep (l1 ++ l2)
  = (PyStr.join sep l1 ++ sep ++ PyStr.join sep l2)%string.
Proof.
  intros H1 H2. induction l1 as [|p [|q l1] IH]; [congruence| |].
  - simpl app. now rewrite join_cons.
  - change ((p :: q :: l1) ++ l2) with (p :: ((q :: l1) ++ l2)).
    rewrite join_cons by discriminate.
    rewrite IH by discriminate.
    rewrite (join_cons sep p (q :: l1)) by discriminate.
    now rewrite !string_app_assoc.
Qed.

(** Joining the joined buffers is joining all their lines, as long as
    no buffer is empty. *)
Lemma join_concat sep (buffers : list (list string)) :
  Forall (fun b => b <> []) buffers ->
  PyStr.join sep (map (PyStr.join sep) buffers) = PyStr.join sep (concat buffers).
Proof.
  induction 1 as [|b [|b' bs] Hb Hbs IH].
  - reflexivity.
  - simpl. now rewrite app_nil_r.
  - change (map (PyStr.join sep) (b :: b' :: bs))
      with (PyStr.join sep b :: map (PyStr.join sep) (b' :: bs)).
    rewrite join_cons by discriminate. rewrite IH.
    change (concat (b :: b' :: bs)) with (b ++ concat (b' :: bs)).
    rewrite join_app; [reflexivity | assumption |].
    inversion Hbs; subst. simpl. destruct b'; [congruence | discriminate].
Qed.

(** ** Segmentation: the loop *)

(** The sentinel key is no heading candidate. *)
Lemma heading_not_Header line : is_heading line = true -> PyStr.strip line <> "Header".
Proof.
  unfold is_heading. intros H E. rewrite E in H. vm_compute in H. discriminate.
Qed.

(** One turn of the loop on a heading candidate and on any other line. *)
Lemma segment_loop_heading line rest segments current :
  is_heading line = true ->
  segment_loop (line :: rest) segments current
  = segment_loop rest (PyDict.set segments (PyStr.strip line) [line])
      (PyStr.strip line).
Proof.
  intros H. simpl. rewrite H. rewrite get_set_same. simpl.
  f_equal. clear. induction segments as [|[k v] d IH]; simpl.
  - now rewrite String.eqb_refl.
  - destruct (String.eqb k (PyStr.strip line)) eqn:E; simpl; rewrite E;
      [reflexivity | now rewrite IH].
Qed.

Lemma segment_loop_plain line rest segments current buffer :
  is_heading line = false ->
  PyDict.get segments current = Some buffer ->
  segment_loop (line :: rest) segments current
  = segment_loop rest (PyDict.set segments current (buffer ++ [line])) current.
Proof. intros H G. simpl. rewrite H, G. reflexivity. Qed.

(** The current section always has a buffer, so the loop goes through
    any prefix of the lines and reaches a state of the same kind. *)
Lemma segment_loop_prefix l1 :
  forall segments current,
    PyDict.get segments current <> None ->
    exists segments' current',
      PyDict.get segments' current' <> None
      /\ forall l2, segment_loop (l1 ++ l2) segments current
                    = segment_loop l2 segments' current'.
Proof.
  induction l1 as [|line l1 IH]; intros segments current Hcur.
  - exists segments, current. split; [assumption | reflexivity].
  - destruct (is_heading line) eqn:Hh.
    + destruct (IH (PyDict.set segments (PyStr.strip line) [line]) (PyStr.strip line))
        as (s' & c' & Hc' & Hrun).
      { rewrite get_set_same. discriminate. }
      exists s', c'. split; [assumption|]. intros l2.
      rewrite <- app_comm_cons, segment_loop_heading by assumption. apply Hrun.
    + destruct (PyDict.get segments current) as [buffer|] eqn:G; [|congruence].
      destruct (IH (PyDict.set segments current (buffer ++ [line])) current)
        as (s' & c' & Hc' & Hrun).
      { rewrite get_set_same. discriminate. }
      exists s', c'. split; [assumption|]. intros l2.
      rewrite <- app_comm_cons, (segment_loop_plain _ _ _ _ buffer) by assumption.
      apply Hrun.
Qed.

Lemma segment_loop_total lines segments current :
  PyDict.get segments current <> None ->
  exists result, segment_loop lines segments current = Some result.
Proof.
  intros H. destruct (segment_loop_prefix lines segments current H)
    as (s' & c' & _ & Hrun).
  exists s'. specialize (Hrun []). rewrite app_nil_r in Hrun. exact Hrun.
Qed.

(** Without a heading candidate every line goes to the current
    section. *)
Lemma segment_loop_no_heading lines :
  forall buffer,
    Forall (fun line => is_heading line = false) lines ->
    segment_loop lines [("Header", buffer)] "Header"
    = Some [("Header", buffer ++ lines)].
Proof.
  induction lines as [|line rest IH]; intros buffer Hall.
  - simpl. now rewrite app_nil_r.
  - inversion Hall as [|? ? Hline Hrest]; subst.
    rewrite (segment_loop_plain _ _ _ _ buffer) by (assumption || reflexivity).
    simpl PyDict.set. rewrite IH by assumption.
    now rewrite <- app_assoc.
Qed.

(** While the remaining heading candidates are new and pairwise
    distinct, each opens a section at the end of the dictionary, and
    the buffers, read in order, are the lines seen. *)
Lemma segment_loop_fresh lines :
  forall done current buffer,
    ~ In current (PyDict.keys done) ->
    NoDup (map PyStr.strip (filter is_heading lines)) ->
    (forall line, In line lines -> is_heading line = true ->
       ~ In (PyStr.strip line) (PyDict.keys done) /\ PyStr.strip line <> current) ->
    exists tail,
      segment_loop lines (done ++ [(current, buffer)]) current = Some (done ++ tail)
      /\ concat (PyDict.values tail) = buffer ++ lines
      /\ PyDict.keys tail = current :: map PyStr.strip (filter is_heading lines)
      /\ (buffer <> [] -> Forall (fun b => b <> []) (PyDict.values tail)).
Proof.
  induction lines as [|line rest IH]; intros done current buffer Hcur Hnd Hnew.
  - exists [(current, buffer)]. simpl. rewrite !app_nil_r.
    repeat split; auto.
  - destruct (is_heading line) eqn:Hh.
    + destruct (Hnew line (or_introl eq_refl) Hh) as [Hk1 Hk2].
      simpl filter in Hnd. rewrite Hh in Hnd. simpl map in Hnd.
      inversion Hnd as [|? ? Hkrest Hnd']; subst.
      assert (Hk : ~ In (PyStr.strip line) (PyDict.keys (done ++ [(current, buffer)]))).
      { unfold PyDict.keys. rewrite map_app, in_app_iff. simpl. intuition. }
      rewrite segment_loop_heading by assumption.
      rewrite set_fresh by assumption.
      destruct (IH (done ++ [(current, buffer)]) (PyStr.strip line) [line] Hk Hnd')
        as (tail & Hrun & Hcat & Hkeys & Hne).
      { intros l Hl Hlh. split.
        - unfold PyDict.keys. rewrite map_app, in_app_iff. simpl.
          destruct (Hnew l (or_intror Hl) Hlh) as [A B]. intuition.
        - intros E. apply Hkrest. rewrite <- E. apply in_map.
          apply filter_In. split; assumption. }
      exists ((current, buffer) :: tail). simpl filter. rewrite Hh.
      rewrite Hrun, <- app_assoc. simpl.
      repeat split.
      * rewrite Hcat. reflexivity.
      * now rewrite Hkeys.
      * intros Hb. constructor; [assumption|]. apply Hne. discriminate.
    + rewrite (segment_loop_plain _ _ _ _ buffer); [|assumption|now apply get_last].
      rewrite set_last by assumption.
      simpl filter in Hnd. rewrite Hh in Hnd.
      destruct (IH done current (buffer ++ [line]) Hcur Hnd)
        as (tail & Hrun & Hcat & Hkeys & Hne).
      { intros l Hl Hlh. apply Hnew; [now right | assumption]. }
      exists tail. simpl filter. rewrite Hh.
      repeat split; try assumption.
      * rewrite Hcat, <- app_assoc. reflexivity.
      * intros Hb. apply Hne. destruct buffer; discriminate.
Qed.

(** A section that no later heading candidate names keeps its buffer,
    and grows by the lines up to the next heading candidate when it is
    the current one. *)
Lemma segment_loop_keeps lines :
  forall segments current key buffer,
    PyDict.get segments current <> None ->
    PyDict.get segments key = Some buffer ->
    (forall line, In line lines -> is_heading line = true ->
       PyStr.strip line <> key) ->
    exists result,
      segment_loop lines segments current = Some result
      /\ PyDict.get result key
         = Some (buffer ++ if String.eqb current key then body_lines lines else []).
Proof.
  induction lines as [|line rest IH]; intros segments current key buffer Hcur Hkey Hlater.
  - exists segments. split; [reflexivity|].
    simpl. destruct (String.eqb current key); now rewrite app_nil_r.
  - destruct (is_heading line) eqn:Hh.
    + assert (Hne : PyStr.strip line <> key) by (apply Hlater; [now left | assumption]).
      rewrite segment_loop_heading by assumption.
      destruct (IH (PyDict.set segments (PyStr.strip line) [line]) (PyStr.strip line)
                  key buffer) as (result & Hrun & Hget).
      { rewrite get_set_same. discriminate. }
      { now rewrite get_set_other. }
      { intros l Hl. apply Hlater. now right. }
      exists result. split; [assumption|]. rewrite Hget.
      apply String.eqb_neq in Hne. rewrite Hne. simpl. rewrite Hh.
      destruct (String.eqb current key); reflexivity.
    + destruct (PyDict.get segments current) as [b|] eqn:G; [|congruence].
      rewrite (segment_loop_plain _ _ _ _ b) by assumption.
      destruct (String.eqb current key) eqn:E.
      * apply String.eqb_eq in E. subst key.
        assert (b = buffer) by congruence. subst b.
        destruct (IH (PyDict.set segments current (buffer ++ [line])) current current
                    (buffer ++ [line])) as (result & Hrun & Hget).
        { rewrite get_set_same. discriminate. }
        { apply get_set_same. }
        { intros l Hl. apply Hlater. now right. }
        exists result. split; [assumption|]. rewrite Hget, String.eqb_refl.
        simpl. rewrite Hh, <- app_assoc. reflexivity.
      * apply String.eqb_neq in E.
        destruct (IH (PyDict.set segments current (b ++ [line])) current key buffer)
          as (result & Hrun & Hget).
        { rewrite get_set_same. discriminate. }
        { now rewrite get_set_other. }
        { intros l Hl. apply Hlater. now right. }
        exists result. split; [assumption|]. rewrite Hget.
        apply String.eqb_neq in E. now rewrite E.
Qed.

(** ** Segmentation: the claims *)

Lemma segment_buffers_total text : exists buffers, segment_buffers text = Some buffers.
Proof. apply segment_loop_total. simpl. discriminate. Qed.

(** C10. A text without a heading candidate line is segmented into the
    single section [Header] whose text is the lines of the input joined
    by line feeds, and [segment_document] returns a map for every
    text, the empty one included. *)
Theorem no_heading_single_header :
  forall text,
    (exists segments, segment_document text = Some segments)
    /\ (Forall (fun line => is_heading line = false) (PyStr.splitlines text) ->
        segment_document text
        = Some [("Header", PyStr.join PyStr.nl (PyStr.splitlines text))]).
Proof.
  intros text. split.
  - destruct (segment_buffers_total text) as [buffers H].
    unfold segment_document. rewrite H. simpl. eauto.
  - intros Hplain. unfold segment_document, segment_buffers.
    rewrite segment_loop_no_heading by assumption. reflexivity.
Qed.

Lemma no_heading_single_header_witness :
  segment_document plain_text
  = Some [("Header", PyStr.join PyStr.nl (PyStr.splitlines plain_text))]
  /\ segment_document "" = Some [("Header", "")].
Proof.
  split.
  - apply (proj2 (no_heading_single_header plain_text)).
    vm_compute. repeat constructor.
  - apply (proj2 (no_heading_single_header "")). constructor.
Defined.

(** C9. When a heading occurs a second time, the section it names holds
    the second heading line and the lines after it up to the next
    heading candidate; what was collected under the first occurrence
    is gone. *)
Theorem repeated_heading_resets :
  forall text before first between second after,
    PyStr.splitlines text = before ++ first :: between ++ second :: after ->
    is_heading first = true ->
    is_heading second = true ->
    PyStr.strip first = PyStr.strip second ->
    (forall line, In line after -> is_heading line = true ->
       PyStr.strip line <> PyStr.strip second) ->
    exists segments,
      segment_document text = Some segments
      /\ PyDict.get segments (PyStr.strip second)
         = Some (PyStr.join PyStr.nl (second :: body_lines after)).
Proof.
  intros text before first between second after Hlines _ Hsecond _ Hlast.
  unfold segment_document, segment_buffers. rewrite Hlines.
  replace (before ++ first :: between ++ second :: after)
    with ((before ++ first :: between) ++ second :: after)
    by (rewrite <- app_assoc; reflexivity).
  destruct (segment_loop_prefix (before ++ first :: between) [("Header", [])] "Header")
    as (segments & current & _ & Hrun); [simpl; discriminate|].
  rewrite Hrun, segment_loop_heading by assumption.
  destruct (segment_loop_keeps after
              (PyDict.set segments (PyStr.strip second) [second])
              (PyStr.strip second) (PyStr.strip second) [second])
    as (result & Hres & Hget); try assumption.
  - rewrite get_set_same. discriminate.
  - apply get_set_same.
  - rewrite Hres. eexists. split; [reflexivity|].
    rewrite get_map_values, Hget, String.eqb_refl. reflexivity.
Qed.

Lemma repeated_heading_resets_witness :
  exists segments,
    segment_document repeated_summary = Some segments
    /\ PyDict.get segments "Summary:" = Some (unlines ["Summary:"; "final"]).
Proof.
  apply (repeated_heading_resets repeated_summary
           [] "Summary:" ["first draft"; "Details:"; "body"] "Summary:" ["final"]).
  - reflexivity.
  - reflexivity.
  - reflexivity.
  - reflexivity.
  - intros line [<- | []]. vm_compute. discriminate.
Defined.

(** C1, as the claim states it, fails: the lines collected under a
    heading are lost when the heading occurs again, and the section
    [Header], which is always present, puts an empty line in front of
    a text that starts with a heading. *)
Lemma coverage_fails_on_repeated_heading :
  (exists segments,
     segment_document repeated_summary = Some segments
     /\ In "first draft" (PyStr.splitlines repeated_summary)
     /\ ~ In "first draft"
          (PyStr.splitlines (PyStr.join PyStr.nl (PyDict.values segments)))
     /\ PyStr.join PyStr.nl (PyDict.values segments)
        <> PyStr.join PyStr.nl (PyStr.splitlines repeated_summary))
  /\ (exists segments,
        segment_document scenario_template = Some segments
        /\ PyStr.splitlines (PyStr.join PyStr.nl (PyDict.values segments))
           <> PyStr.splitlines scenario_template).
Proof.
  split; eexists; (split; [vm_compute; reflexivity|]).
  - split; [|split].
    + vm_compute. tauto.
    + vm_compute. intuition discriminate.
    + vm_compute. discriminate.
  - vm_compute. discriminate.
Qed.

(** C1, amended. When no two heading candidate lines have the same
    trimmed text, every line of the input lies in the buffer of exactly
    one section: the buffers, read in the order of the sections, are
    the lines of the input. When moreover the first line is no heading
    candidate, the section texts joined by line feeds are the lines of
    the input joined by line feeds. *)
Theorem segment_document_coverage :
  forall text,
    NoDup (map PyStr.strip (filter is_heading (PyStr.splitlines text))) ->
    exists buffers,
      segment_buffers text = Some buffers
      /\ segment_document text
         = Some (PyDict.map_values (PyStr.join PyStr.nl) buffers)
      /\ concat (PyDict.values buffers) = PyStr.splitlines text
      /\ ((forall first rest, PyStr.splitlines text = first :: rest ->
             is_heading first = false) ->
          PyStr.join PyStr.nl
            (PyDict.values (PyDict.map_values (PyStr.join PyStr.nl) buffers))
          = PyStr.join PyStr.nl (PyStr.splitlines text)).
Proof.
  intros text Hnd. unfold segment_document, segment_buffers.
  destruct (PyStr.splitlines text) as [|first rest] eqn:Hlines.
  - exists [("Header", [])]. repeat split; reflexivity.
  - destruct (is_heading first) eqn:Hfirst.
    + destruct (segment_loop_fresh (first :: rest) [] "Header" [])
        as (tail & Hrun & Hcat & _ & _); try assumption.
      * simpl. tauto.
      * intros line _ Hh. split; [simpl; tauto | now apply heading_not_Header].
      * exists tail. simpl app in Hrun. rewrite Hrun. repeat split.
        -- exact Hcat.
        -- intros Hno. specialize (Hno first rest eq_refl). congruence.
    + rewrite (segment_loop_plain _ _ _ _ []) by (assumption || reflexivity).
      simpl PyDict.set. simpl filter in Hnd. rewrite Hfirst in Hnd.
      destruct (segment_loop_fresh rest [] "Header" [first])
        as (tail & Hrun & Hcat & _ & Hne); try assumption.
      * simpl. tauto.
      * intros line _ Hh. split; [simpl; tauto | now apply heading_not_Header].
      * exists tail. simpl app in Hrun. rewrite Hrun. repeat split.
        -- exact Hcat.
        -- intros _. rewrite values_map_values, join_concat, Hcat; [reflexivity|].
           apply Hne. discriminate.
Qed.

Lemma segment_document_coverage_witness :
  exists buffers,
    segment_buffers prefaced_text = Some buffers
    /\ concat (PyDict.values buffers) = PyStr.splitlines prefaced_text
    /\ PyStr.join PyStr.nl
         (PyDict.values (PyDict.map_values (PyStr.join PyStr.nl) buffers))
       = prefaced_text.
Proof.
  destruct (segment_document_coverage prefaced_text) as (buffers & Hb & _ & Hcat & Hjoin).
  - vm_compute. repeat constructor; simpl; intuition discriminate.
  - exists buffers. split; [exact Hb|]. split; [exact Hcat|].
    rewrite Hjoin; [reflexivity|].
    intros first rest Hlines. vm_compute in Hlines.
    injection Hlines as <- _. reflexivity.
Defined.

(** ** Reading the answer of the service *)

Lemma is_empty_true s : PyStr.is_empty s = true <-> s = "".
Proof. destruct s; simpl; split; congruence. Qed.

Lemma lower_colon c : PyChar.lower c = ":"%char -> c = ":"%char.
Proof.
  destruct c as [[] [] [] [] [] [] [] []]; vm_compute; intros H;
    first [reflexivity | discriminate H].
Qed.

(** Two prefixes of one string are prefixes of each other one way or
    the other, so a line starts with at most one of the four field
    prefixes. *)
Lemma startswith_comparable s :
  forall p q,
    PyStr.startswith s p = true -> PyStr.startswith s q = true ->
    PyStr.startswith p q = true \/ PyStr.startswith q p = true.
Proof.
  induction s as [|c s IH]; intros [|a p] [|b q]; simpl; auto; try discriminate.
  intros Hp Hq. apply andb_true_iff in Hp as [Ha Hp].
  apply andb_true_iff in Hq as [Hb Hq].
  apply Ascii.eqb_eq in Ha, Hb. subst a b. rewrite Ascii.eqb_refl. simpl.
  now apply IH.
Qed.

Lemma has_prefix_exclusive f g line :
  has_prefix f line = true -> has_prefix g line = true -> f = g.
Proof.
  unfold has_prefix. intros Hf Hg.
  destruct (startswith_comparable _ _ _ Hf Hg) as [H | H];
    destruct f, g; try reflexivity; vm_compute in H; discriminate.
Qed.

(** A line that starts with a field prefix has a colon, so
    [split(":", 1)] gives two parts. *)
Lemma split_colon_once_nonempty s : PyStr.split_colon_once s <> [].
Proof.
  destruct s as [|c s]; simpl; [discriminate|].
  destruct (Ascii.eqb c ":"); [discriminate|].
  destruct (PyStr.split_colon_once s); discriminate.
Qed.

Lemma startswith_lower_colon p :
  forall s a,
    PyStr.startswith (PyStr.lower s) (p ++ ":") = true ->
    PyStr.split_colon_once s = [a] -> False.
Proof.
  induction p as [|x p IH]; intros [|c s] a;
    cbn [PyStr.lower PyStr.startswith append PyStr.split_colon_once];
    try discriminate.
  - intros H. apply andb_true_iff in H as [H _]. apply Ascii.eqb_eq in H.
    symmetry in H. apply lower_colon in H. subst c.
    rewrite Ascii.eqb_refl. discriminate.
  - intros H. apply andb_true_iff in H as [_ H].
    destruct (Ascii.eqb c ":"); [discriminate|].
    destruct (PyStr.split_colon_once s) as [|h [|h' t]] eqn:E; try discriminate.
    + now apply split_colon_once_nonempty in E.
    + intros _. exact (IH s h H E).
Qed.

Lemma field_text_defined f line :
  has_prefix f line = true -> exists v, field_text line = Some v.
Proof.
  unfold has_prefix, field_text. intros H.
  destruct (PyStr.split_colon_once line) as [|a [|b t]] eqn:E.
  - now apply split_colon_once_nonempty in E.
  - exfalso. destruct f.
    + exact (startswith_lower_colon "status" line a H E).
    + exact (startswith_lower_colon "reason" line a H E).
    + exact (startswith_lower_colon "remediation" line a H E).
    + exact (startswith_lower_colon "match percentage" line a H E).
  - eauto.
Qed.

(** The loop body never raises. *)
Lemma parse_line_total j line : exists j', parse_line j line = Some j'.
Proof.
  unfold parse_line.
  destruct (PyStr.startswith (PyStr.lower line) "status:") eqn:H1.
  { destruct (field_text_defined Status line H1) as [v ->]. simpl. eauto. }
  destruct (PyStr.startswith (PyStr.lower line) "reason:") eqn:H2.
  { destruct (field_text_defined Reason line H2) as [v ->]. simpl. eauto. }
  destruct (PyStr.startswith (PyStr.lower line) "remediation:") eqn:H3.
  { destruct (field_text_defined Remediation line H3) as [v ->]. simpl. eauto. }
  destruct (PyStr.startswith (PyStr.lower line) "match percentage:"); eauto.
Qed.

Lemma parse_lines_total lines : forall j, exists j', parse_lines lines j = Some j'.
Proof.
  induction lines as [|line rest IH]; intros j; simpl; [eauto|].
  destruct (parse_line_total j line) as [j1 ->]. apply IH.
Qed.

Lemma parse_lines_app l1 l2 j :
  parse_lines (l1 ++ l2) j
  = match parse_lines l1 j with
    | Some j' => parse_lines l2 j'
    | None => None
    end.
Proof.
  revert j. induction l1 as [|line l1 IH]; intros j; simpl; [reflexivity|].
  destruct (parse_line j line); [apply IH | reflexivity].
Qed.

(** What one line does to one field: nothing when the line does not
    start with the prefix of the field, and otherwise it sets the field
    to a value that depends on the line alone. *)
Lemma parse_line_other f line j j' :
  has_prefix f line = false ->
  parse_line j line = Some j' ->
  field_value f j' = field_value f j.
Proof.
  unfold has_prefix, parse_line. intros Hf.
  destruct (PyStr.startswith (PyStr.lower line) "status:") eqn:H1.
  { destruct (field_text line); simpl; intros [= <-];
      destruct f; simpl in *; congruence. }
  destruct (PyStr.startswith (PyStr.lower line) "reason:") eqn:H2.
  { destruct (field_text line); simpl; intros [= <-];
      destruct f; simpl in *; congruence. }
  destruct (PyStr.startswith (PyStr.lower line) "remediation:") eqn:H3.
  { destruct (field_text line); simpl; intros [= <-];
      destruct f; simpl in *; congruence. }
  destruct (PyStr.startswith (PyStr.lower line) "match percentage:") eqn:H4.
  { intros [= <-]; destruct f; simpl in *; congruence. }
  intros [= <-]. reflexivity.
Qed.

Lemma parse_line_sets f line j j' :
  has_prefix f line = true ->
  parse_line j line = Some j' ->
  field_value f j'
  = match f with
    | MatchPercentage => Number (percent_of line)
    | _ => match field_text line with
           | Some v => Text v
           | None => Text ""
           end
    end.
Proof.
  intros Hf.
  assert (Hother : forall g, g <> f -> has_prefix g line = false).
  { intros g Hg. destruct (has_prefix g line) eqn:E; [|reflexivity].
    exfalso. apply Hg. exact (has_prefix_exclusive g f line E Hf). }
  unfold parse_line.
  destruct f; unfold has_prefix in Hf; simpl in Hf.
  - rewrite Hf. destruct (field_text line); simpl; intros [= <-]; reflexivity.
  - pose proof (Hother Status ltac:(discriminate)) as H1.
    unfold has_prefix in H1; simpl in H1. rewrite H1, Hf.
    destruct (field_text line); simpl; intros [= <-]; reflexivity.
  - pose proof (Hother Status ltac:(discriminate)) as H1.
    pose proof (Hother Reason ltac:(discriminate)) as H2.
    unfold has_prefix in H1, H2; simpl in H1, H2. rewrite H1, H2, Hf.
    destruct (field_text line); simpl; intros [= <-]; reflexivity.
  - pose proof (Hother Status ltac:(discriminate)) as H1.
    pose proof (Hother Reason ltac:(discriminate)) as H2.
    pose proof (Hother Remediation ltac:(discriminate)) as H3.
    unfold has_prefix in H1, H2, H3; simpl in H1, H2, H3.
    rewrite H1, H2, H3, Hf. intros [= <-]; reflexivity.
Qed.

Lemma parse_lines_other f lines :
  forall j j',
    Forall (fun line => has_prefix f line = false) lines ->
    parse_lines lines j = Some j' ->
    field_value f j' = field_value f j.
Proof.
  induction lines as [|line rest IH]; intros j j' Hall; simpl.
  - intros [= <-]. reflexivity.
  - inversion Hall as [|? ? Hline Hrest]; subst.
    destruct (parse_line j line) as [j1|] eqn:E; [|discriminate].
    intros Hrun. rewrite (IH j1 j' Hrest Hrun).
    exact (parse_line_other f line j j1 Hline E).
Qed.

(** The field of the result is the one that the last line with its
    prefix gave. *)
Lemma parse_lines_last f before line after j j' :
  has_prefix f line = true ->
  Forall (fun l => has_prefix f l = false) after ->
  parse_lines (before ++ line :: after) j = Some j' ->
  forall j0, exists j1,
    parse_line j0 line = Some j1 /\ field_value f j' = field_value f j1.
Proof.
  intros Hline Hafter Hrun j0. rewrite parse_lines_app in Hrun.
  destruct (parse_lines before j) as [jb|]; [|discriminate].
  simpl in Hrun. destruct (parse_line jb line) as [jl|] eqn:El; [|discriminate].
  destruct (parse_line_total j0 line) as [j1 E1]. exists j1. split; [exact E1|].
  rewrite (parse_lines_other f after jl j' Hafter Hrun).
  rewrite (parse_line_sets f line jb jl Hline El).
  rewrite (parse_line_sets f line j0 j1 Hline E1). reflexivity.
Qed.

(** The match percentage is the initial one or the one that some match
    percentage line gave. *)
Lemma parse_lines_percent lines :
  forall j j',
    parse_lines lines j = Some j' ->
    j_match_percent j' = j_match_percent j
    \/ exists line,
         In line lines /\ has_prefix MatchPercentage line = true
         /\ j_match_percent j' = percent_of line.
Proof.
  induction lines as [|line rest IH]; intros j j'; simpl.
  - intros [= <-]. now left.
  - destruct (parse_line j line) as [j1|] eqn:E; [|discriminate].
    intros Hrun. destruct (IH j1 j' Hrun) as [Hsame | (l & Hin & Hp & Hv)].
    + destruct (has_prefix MatchPercentage line) eqn:Hp.
      * right. exists line. split; [now left|]. split; [assumption|].
        pose proof (parse_line_sets MatchPercentage line j j1 Hp E) as Hs.
        simpl in Hs. injection Hs as Hs. congruence.
      * left. pose proof (parse_line_other MatchPercentage line j j1 Hp E) as Hs.
        simpl in Hs. injection Hs as Hs. congruence.
    + right. exists l. split; [now right|]. split; assumption.
Qed.

Lemma default_remediation_keeps j :
  j_status (default_remediation j) = j_status j
  /\ j_match_percent (default_remediation j) = j_match_percent j
  /\ j_reason (default_remediation j) = j_reason j.
Proof.
  unfold default_remediation. destruct (PyStr.is_empty (j_remediation j)); auto.
Qed.

(** ** Comparison: the loop *)

Section ComparatorFacts.

Context {World : Type}.
Variable chat_completion : World -> string -> option (string * World).

(** The branches of the loop body: the report is left alone, and only
    the third branch asks the service, once. *)
Lemma judge_branches section content fc st j st1 :
  judge chat_completion section content fc st = Some (j, st1) ->
  comparison st1 = comparison st
  /\ ((PyStr.strip fc = "" /\ j = missing_judgment /\ calls st1 = calls st)
      \/ (PyStr.strip fc <> "" /\ PyStr.strip fc = PyStr.strip content
          /\ j = sufficient_judgment /\ calls st1 = calls st)
      \/ (PyStr.strip fc <> "" /\ PyStr.strip fc <> PyStr.strip content
          /\ exists response parsed,
               calls st1 = calls st ++ [mkCall section (prompt content fc) response]
               /\ parse_response (PyStr.splitlines response) = Some parsed
               /\ j = default_remediation parsed)).
Proof.
  unfold judge.
  destruct (PyStr.is_empty (PyStr.strip fc)) eqn:Hblank.
  - apply is_empty_true in Hblank. intros [= <- <-]. auto.
  - assert (Hne : PyStr.strip fc <> "").
    { intros E. apply is_empty_true in E. congruence. }
    destruct (String.eqb (PyStr.strip fc) (PyStr.strip content)) eqn:Heq.
    + apply String.eqb_eq in Heq. intros [= <- <-]. auto 10.
    + apply String.eqb_neq in Heq.
      destruct (chat_completion (world st) (prompt content fc))
        as [[response w']|]; [|discriminate].
      destruct (parse_response (PyStr.splitlines response)) as [parsed|] eqn:Hp;
        [|discriminate].
      intros [= <- <-]. simpl. split; [reflexivity|].
      right. right. repeat split; try assumption. eauto.
Qed.

Lemma judge_calls section content fc st j st1 :
  judge chat_completion section content fc st = Some (j, st1) ->
  exists new,
    calls st1 = calls st ++ new
    /\ forall c, In c new -> call_section c = section.
Proof.
  intros H. apply judge_branches in H as [_ [H | [H | H]]].
  - exists []. rewrite app_nil_r. split; [tauto | contradiction].
  - exists []. rewrite app_nil_r. split; [tauto | contradiction].
  - destruct H as (_ & _ & response & parsed & Hc & _).
    eexists. split; [exact Hc|]. intros c [<- | []]. reflexivity.
Qed.

(** The loop only adds requests, and only for the sections it goes
    through. *)
Lemma compare_loop_calls items filled_map :
  forall st st',
    compare_loop chat_completion items filled_map st = Some st' ->
    exists new,
      calls st' = calls st ++ new
      /\ forall c, In c new -> In (call_section c) (PyDict.keys items).
Proof.
  induction items as [|[section content] rest IH]; intros st st'; simpl.
  - intros [= <-]. exists []. rewrite app_nil_r. split; [reflexivity | contradiction].
  - destruct (judge chat_completion section content (PyDict.get_default filled_map section "") st)
      as [[j st1]|] eqn:Hj; [|discriminate].
    intros Hrun. apply IH in Hrun as (new2 & Hc2 & Hs2). simpl in Hc2.
    apply judge_calls in Hj as (new1 & Hc1 & Hs1).
    exists (new1 ++ new2). rewrite Hc2, Hc1, app_assoc. split; [reflexivity|].
    intros c Hin. apply in_app_or in Hin as [Hin | Hin].
    + left. symmetry. now apply Hs1.
    + right. now apply Hs2.
Qed.

(** The loop leaves the entries of other sections alone. *)
Lemma compare_loop_untouched items filled_map :
  forall st st' key,
    compare_loop chat_completion items filled_map st = Some st' ->
    ~ In key (PyDict.keys items) ->
    PyDict.get (comparison st') key = PyDict.get (comparison st) key.
Proof.
  induction items as [|[section content] rest IH]; intros st st' key; simpl.
  - intros [= <-]. reflexivity.
  - destruct (judge chat_completion section content (PyDict.get_default filled_map section "") st)
      as [[j st1]|] eqn:Hj; [|discriminate].
    intros Hrun Hkey. rewrite (IH _ _ key Hrun) by tauto. simpl.
    apply judge_branches in Hj as [Hcmp _]. rewrite Hcmp.
    apply get_set_other. tauto.
Qed.

(** The entry of a template section, and how it came about. *)
Lemma compare_loop_entry items filled_map :
  forall st st' section content,
    PyDict.wf items ->
    compare_loop chat_completion items filled_map st = Some st' ->
    In (section, content) items ->
    (forall c, In c (calls st) -> call_section c <> section) ->
    exists j,
      PyDict.get (comparison st') section
      = Some (record_of content (PyDict.get_default filled_map section "") j)
      /\ Verdict section content (PyDict.get_default filled_map section "") j st'.
Proof.
  unfold PyDict.wf.
  induction items as [|[k0 c0] rest IH]; intros st st' section content Hwf;
    [contradiction|].
  simpl in Hwf. inversion Hwf as [|? ? Hk0 Hwf']; subst.
  cbn [compare_loop].
  destruct (judge chat_completion k0 c0 (PyDict.get_default filled_map k0 "") st)
    as [[j st1]|] eqn:Hj; [|discriminate].
  intros Hrun [Hhead | Htail] Hquiet.
  - injection Hhead as -> ->.
    pose proof (compare_loop_untouched _ _ _ _ section Hrun Hk0) as Hget.
    simpl in Hget. rewrite get_set_same in Hget.
    destruct (compare_loop_calls _ _ _ _ Hrun) as (new & Hcalls & Hnew).
    simpl in Hcalls.
    assert (Hlater : forall c, In c new -> call_section c <> section).
    { intros c Hc E. apply Hk0. rewrite <- E. now apply Hnew. }
    exists j. split; [exact Hget|].
    apply judge_branches in Hj as [_ [H | [H | H]]].
    + destruct H as (Hb & -> & Hc). apply verdict_missing; auto.
      intros c Hin. rewrite Hcalls, Hc in Hin.
      apply in_app_or in Hin as [Hin | Hin]; auto.
    + destruct H as (Hb & He & -> & Hc). apply verdict_exact; auto.
      intros c Hin. rewrite Hcalls, Hc in Hin.
      apply in_app_or in Hin as [Hin | Hin]; auto.
    + destruct H as (Hb & He & response & parsed & Hc & Hp & ->).
      apply (verdict_oracle _ _ _ _ _ response parsed); auto.
      rewrite Hcalls, Hc. apply in_or_app. left. apply in_or_app. right. now left.
  - apply (IH _ st' section content Hwf' Hrun Htail). simpl.
    assert (Hne : k0 <> section).
    { intros ->. apply Hk0. change section with (fst (section, content)).
      now apply in_map. }
    apply judge_calls in Hj as (new & Hc & Hs). rewrite Hc.
    intros c Hin. apply in_app_or in Hin as [Hin | Hin]; auto.
    rewrite (Hs c Hin). exact Hne.
Qed.

(** Every entry of the report belongs to a template section. *)
Lemma compare_segments_keys template_map filled_map w run section rec :
  compare_segments chat_completion template_map filled_map w = Some run ->
  PyDict.get (comparison run) section = Some rec ->
  exists content, In (section, content) template_map.
Proof.
  intros Hrun Hget.
  destruct (in_dec string_dec section (PyDict.keys template_map)) as [Hin | Hout].
  - unfold PyDict.keys in Hin. apply in_map_iff in Hin as ([k c] & <- & Hin). eauto.
  - rewrite (compare_loop_untouched _ _ _ _ _ Hrun Hout) in Hget. discriminate.
Qed.

Lemma compare_segments_entry template_map filled_map w run section content :
  PyDict.wf template_map ->
  compare_segments chat_completion template_map filled_map w = Some run ->
  In (section, content) template_map ->
  exists j,
    PyDict.get (comparison run) section
    = Some (record_of content (PyDict.get_default filled_map section "") j)
    /\ Verdict section content (PyDict.get_default filled_map section "") j run.
Proof.
  intros Hwf Hrun Hin.
  apply (compare_loop_entry _ _ _ _ _ _ Hwf Hrun Hin). simpl. contradiction.
Qed.

(** A run in which the service answers every request reaches the end. *)
Lemma compare_loop_total items filled_map :
  (forall w request, chat_completion w request <> None) ->
  forall st, exists st', compare_loop chat_completion items filled_map st = Some st'.
Proof.
  intros Hup. induction items as [|[section content] rest IH]; intros st; simpl.
  - eauto.
  - assert (Hj : exists j st1,
               judge chat_completion section content (PyDict.get_default filled_map section "") st
               = Some (j, st1)).
    { unfold judge.
      destruct (PyStr.is_empty _); [eauto|].
      destruct (String.eqb _ _); [eauto|].
      destruct (chat_completion (world st) _) as [[response w']|] eqn:E.
      - destruct (parse_lines_total (PyStr.splitlines response) initial_judgment)
          as [parsed Hp].
        unfold parse_response. rewrite Hp. eauto.
      - exfalso. exact (Hup _ _ E). }
    destruct Hj as (j & st1 & ->). apply IH.
Qed.

End ComparatorFacts.

(** ** Comparison: the claims *)

Ltac solve_wf :=
  unfold PyDict.wf; simpl; repeat constructor; simpl; intuition discriminate.

(** C8. A template section whose filled counterpart is absent or blank
    is recorded as [Missing] with match percentage 0 and the two fixed
    texts, and the service is not asked for it; the run reaches its
    end whenever the service answers the requests of the other
    sections. *)
Theorem blank_filled_missing :
  forall (World : Type) (chat_completion : World -> string -> option (string * World))
         (template_map filled_map : SegmentMap) (w : World) section content,
    PyDict.wf template_map ->
    In (section, content) template_map ->
    (PyDict.get filled_map section = None
     \/ exists text, PyDict.get filled_map section = Some text
                     /\ PyStr.strip text = "") ->
    ((forall w' request, chat_completion w' request <> None) ->
     exists run, compare_segments chat_completion template_map filled_map w = Some run)
    /\ forall run,
         compare_segments chat_completion template_map filled_map w = Some run ->
         PyDict.get (comparison run) section
         = Some (mkRecord content (PyDict.get_default filled_map section "")
                   "Missing"
                   "This section is missing in the filled document."
                   "Please provide content for this section."
                   0)
         /\ not_asked section run.
Proof.
  intros World chat_completion template_map filled_map w section content
    Hwf Hin Hblank.
  split; [intros Hup; now apply compare_loop_total|].
  intros run Hrun.
  destruct (compare_segments_entry _ _ _ _ _ _ _ Hwf Hrun Hin) as (j & Hget & Hv).
  assert (Hb : PyStr.strip (PyDict.get_default filled_map section "") = "").
  { unfold PyDict.get_default.
    destruct Hblank as [-> | (text & -> & Ht)]; [reflexivity | exact Ht]. }
  destruct Hv as [_ -> Hq | Hne _ _ _ | response parsed Hne _ _ _ _];
    [|contradiction|contradiction].
  split; [exact Hget | exact Hq].
Qed.

Lemma blank_filled_missing_witness :
  exists run,
    compare_segments (scripted answer_regular) demo_template demo_filled tt = Some run
    /\ PyDict.get (comparison run) "2. Budget:"
       = Some (mkRecord (unlines ["2. Budget:"; "State the amount."]) "   "
                 "Missing"
                 "This section is missing in the filled document."
                 "Please provide content for this section."
                 0)
    /\ not_asked "2. Budget:" run.
Proof.
  eexists. split; [vm_compute; reflexivity|].
  refine (proj2 (blank_filled_missing unit (scripted answer_regular)
                   demo_template demo_filled tt "2. Budget:"
                   (unlines ["2. Budget:"; "State the amount."]) _ _ _) _ _).
  - solve_wf.
  - simpl. tauto.
  - right. exists "   ". split; reflexivity.
  - vm_compute. reflexivity.
Defined.

(** C7, as the claim states it, fails in one letter: the remediation
    of the exact match branch ends with a full stop, so it is not the
    text [None needed] that the claim quotes. *)
Lemma exact_match_remediation_full_stop :
  exists run rec,
    compare_segments (scripted answer_regular) demo_template demo_filled tt = Some run
    /\ PyDict.get (comparison run) "Header" = Some rec
    /\ PyStr.strip (filled rec) <> ""
    /\ PyStr.strip (filled rec) = PyStr.strip (template rec)
    /\ remediation rec = "None needed."
    /\ remediation rec <> "None needed".
Proof.
  do 2 eexists.
  split; [vm_compute; reflexivity|].
  split; [vm_compute; reflexivity|].
  split; [vm_compute; discriminate|].
  split; [vm_compute; reflexivity|].
  split; [reflexivity | discriminate].
Qed.

(** C7, amended. A template section whose filled counterpart is not
    blank and equal to the template text after trimming is recorded as
    [Sufficient] with match percentage 100 and the remediation
    [None needed.] (with the full stop), and the service is not asked
    for it. *)
Theorem exact_match_sufficient :
  forall (World : Type) (chat_completion : World -> string -> option (string * World))
         (template_map filled_map : SegmentMap) (w : World) section content,
    PyDict.wf template_map ->
    In (section, content) template_map ->
    PyStr.strip (PyDict.get_default filled_map section "") <> "" ->
    PyStr.strip (PyDict.get_default filled_map section "") = PyStr.strip content ->
    ((forall w' request, chat_completion w' request <> None) ->
     exists run, compare_segments chat_completion template_map filled_map w = Some run)
    /\ forall run,
         compare_segments chat_completion template_map filled_map w = Some run ->
         PyDict.get (comparison run) section
         = Some (mkRecord content (PyDict.get_default filled_map section "")
                   "Sufficient"
                   "This section is sufficiently filled and matches the template."
                   "None needed."
                   100)
         /\ not_asked section run.
Proof.
  intros World chat_completion template_map filled_map w section content
    Hwf Hin Hne Heq.
  split; [intros Hup; now apply compare_loop_total|].
  intros run Hrun.
  destruct (compare_segments_entry _ _ _ _ _ _ _ Hwf Hrun Hin) as (j & Hget & Hv).
  destruct Hv as [Hb _ _ | _ _ -> Hq | response parsed _ Hd _ _ _];
    [contradiction| |contradiction].
  split; [exact Hget | exact Hq].
Qed.

Lemma exact_match_sufficient_witness :
  exists run,
    compare_segments (scripted answer_regular) demo_template demo_filled tt = Some run
    /\ PyDict.get (comparison run) "Header"
       = Some (mkRecord "Form A" " Form A " "Sufficient"
                 "This section is sufficiently filled and matches the template."
                 "None needed."
                 100)
    /\ not_asked "Header" run.
Proof.
  eexists. split; [vm_compute; reflexivity|].
  refine (proj2 (exact_match_sufficient unit (scripted answer_regular)
                   demo_template demo_filled tt "Header" "Form A" _ _ _ _) _ _).
  - solve_wf.
  - simpl. tauto.
  - vm_compute. discriminate.
  - reflexivity.
  - vm_compute. reflexivity.
Defined.

(** C5, as the claim states it, fails: the report has a third entry,
    for the section [Header] that every segmentation has; and a filled
    text that keeps the heading [2. Budget:] with nothing under it has
    a section of that name that is not blank, so the service is asked
    and its answer decides the status. *)
Lemma scenario_report_not_two_entries :
  exists template_map filled_map run,
    segment_document scenario_template = Some template_map
    /\ segment_document scenario_filled = Some filled_map
    /\ compare_segments unreachable template_map filled_map tt = Some run
    /\ PyDict.keys (comparison run) = ["Header"; "1. Scope:"; "2. Budget:"]
    /\ length (comparison run) <> 2
    /\ exists bare_map run' rec,
         segment_document scenario_filled_bare_heading = Some bare_map
         /\ compare_segments unreachable template_map bare_map tt = None
         /\ compare_segments (scripted answer_regular) template_map bare_map tt
            = Some run'
         /\ PyDict.get (comparison run') "2. Budget:" = Some rec
         /\ status rec = "Lacking Information"
         /\ match_percent rec = 85%Z.
Proof.
  do 3 eexists.
  split; [vm_compute; reflexivity|].
  split; [vm_compute; reflexivity|].
  split; [vm_compute; reflexivity|].
  split; [reflexivity|].
  split; [simpl; discriminate|].
  do 3 eexists.
  split; [vm_compute; reflexivity|].
  split; [vm_compute; reflexivity|].
  split; [vm_compute; reflexivity|].
  split; [vm_compute; reflexivity|].
  split; reflexivity.
Qed.

(** C5, amended. Segmenting the template text of the scenario and a
    filled text that repeats the section [1. Scope:] and has no section
    [2. Budget:], then comparing, gives a report with exactly three
    entries: [Header] with status [Missing] and match percentage 0,
    [1. Scope:] with [Sufficient] and 100, [2. Budget:] with [Missing]
    and 0; the service is not asked. *)
Theorem scenario_report :
  forall (World : Type) (chat_completion : World -> string -> option (string * World))
         (w : World),
  exists template_map filled_map,
    segment_document scenario_template = Some template_map
    /\ segment_document scenario_filled = Some filled_map
    /\ compare_segments chat_completion template_map filled_map w
       = Some (mkRun
                 [("Header",
                   mkRecord "" "" "Missing"
                     "This section is missing in the filled document."
                     "Please provide content for this section." 0);
                  ("1. Scope:",
                   mkRecord (unlines ["1. Scope:"; "Describe the work."])
                     (unlines ["1. Scope:"; "Describe the work."])
                     "Sufficient"
                     "This section is sufficiently filled and matches the template."
                     "None needed." 100);
                  ("2. Budget:",
                   mkRecord (unlines ["2. Budget:"; "State the amount."]) ""
                     "Missing"
                     "This section is missing in the filled document."
                     "Please provide content for this section." 0)]
                 [] w).
Proof.
  intros World chat_completion w. do 2 eexists.
  split; [vm_compute; reflexivity|].
  split; [vm_compute; reflexivity|].
  vm_compute. reflexivity.
Qed.

(** C3, as the claim states it, fails: of two status lines and two
    match percentage lines the later ones are kept. *)
Lemma later_occurrence_overrides :
  PyStr.splitlines answer_repeated
  = ["Status: Sufficient"; "Match Percentage: 90";
     "Status: Other Issue"; "Match Percentage: 10"]
  /\ exists run rec,
       compare_segments (scripted answer_repeated) demo_template demo_filled tt
       = Some run
       /\ PyDict.get (comparison run) "1. Scope:" = Some rec
       /\ status rec = "Other Issue"
       /\ status rec <> "Sufficient"
       /\ match_percent rec = 10%Z
       /\ match_percent rec <> 90%Z.
Proof.
  split; [vm_compute; reflexivity|].
  do 2 eexists.
  split; [vm_compute; reflexivity|].
  split; [vm_compute; reflexivity|].
  simpl. repeat split; discriminate.
Qed.

(** C3, amended. When several lines of the answer start with the same
    field prefix, the last of them gives the field its value: the text
    after its first colon, trimmed, and for the match percentage the
    integer read from that text (0 when it is none); earlier lines
    with the prefix have no effect. *)
Theorem last_occurrence_honored :
  forall (f : Field) (before : list string) (line : string) (after : list string),
    has_prefix f line = true ->
    Forall (fun l => has_prefix f l = false) after ->
    exists j v,
      parse_response (before ++ line :: after) = Some j
      /\ field_text line = Some v
      /\ field_value f j
         = match f with
           | MatchPercentage => Number (percent_of line)
           | _ => Text v
           end.
Proof.
  intros f before line after Hline Hafter.
  destruct (parse_lines_total (before ++ line :: after) initial_judgment) as [j Hj].
  destruct (field_text_defined f line Hline) as [v Hv].
  exists j, v. split; [exact Hj|]. split; [exact Hv|].
  destruct (parse_lines_last f before line after _ j Hline Hafter Hj initial_judgment)
    as (j1 & H1 & ->).
  rewrite (parse_line_sets f line _ j1 Hline H1), Hv. destruct f; reflexivity.
Qed.

Lemma last_occurrence_honored_witness :
  exists j v,
    parse_response
      (["Status: Sufficient"; "Match Percentage: 90"]
       ++ "Status: Other Issue" :: ["Match Percentage: 10"]) = Some j
    /\ field_text "Status: Other Issue" = Some v
    /\ field_value Status j = Text v.
Proof.
  apply (last_occurrence_honored Status
           ["Status: Sufficient"; "Match Percentage: 90"]
           "Status: Other Issue" ["Match Percentage: 10"]).
  - reflexivity.
  - repeat constructor.
Defined.

(** C2, as the claim states it, fails: a status token outside the
    taxonomy is stored as it is. *)
Lemma unrecognized_status_is_stored :
  exists run rec,
    compare_segments (scripted answer_unrecognized) demo_template demo_filled tt
    = Some run
    /\ map call_section (calls run) = ["1. Scope:"]
    /\ PyDict.get (comparison run) "1. Scope:" = Some rec
    /\ status rec = "Great"
    /\ ~ In (status rec) oracle_taxonomy.
Proof.
  do 2 eexists.
  split; [vm_compute; reflexivity|].
  split; [vm_compute; reflexivity|].
  split; [vm_compute; reflexivity|].
  split; [reflexivity|].
  simpl. intuition discriminate.
Qed.

(** C2, amended. In the branch that asks the service, the status of
    the record is [Other Issue] when no line of the answer starts with
    the status prefix; otherwise it is the text after the first colon
    of the last such line, trimmed and stored as it is, whether or not
    it is one of the three values of the taxonomy. *)
Theorem oracle_status_verbatim :
  forall (World : Type) (chat_completion : World -> string -> option (string * World))
         (template_map filled_map : SegmentMap) (w : World) (run : Run World)
         section content,
    PyDict.wf template_map ->
    compare_segments chat_completion template_map filled_map w = Some run ->
    In (section, content) template_map ->
    PyStr.strip (PyDict.get_default filled_map section "") <> "" ->
    PyStr.strip (PyDict.get_default filled_map section "") <> PyStr.strip content ->
    exists rec response,
      PyDict.get (comparison run) section = Some rec
      /\ In (mkCall section
               (prompt content (PyDict.get_default filled_map section ""))
               response)
            (calls run)
      /\ (Forall (fun l => has_prefix Status l = false) (PyStr.splitlines response) ->
          status rec = "Other Issue")
      /\ (forall before line after,
            PyStr.splitlines response = before ++ line :: after ->
            has_prefix Status line = true ->
            Forall (fun l => has_prefix Status l = false) after ->
            field_text line = Some (status rec)).
Proof.
  intros World chat_completion template_map filled_map w run section content
    Hwf Hrun Hin Hne Hdiff.
  destruct (compare_segments_entry _ _ _ _ _ _ _ Hwf Hrun Hin) as (j & Hget & Hv).
  destruct Hv as [Hb _ _ | _ He _ _ | response parsed _ _ Hcall Hparse ->];
    [contradiction|contradiction|].
  eexists. exists response. split; [exact Hget|]. split; [exact Hcall|].
  simpl. destruct (default_remediation_keeps parsed) as (-> & _ & _).
  split.
  - intros Hnone.
    pose proof (parse_lines_other Status _ _ _ Hnone Hparse) as H.
    simpl in H. now injection H.
  - intros before line after Hlines Hline Hafter. rewrite Hlines in Hparse.
    destruct (parse_lines_last Status before line after _ parsed Hline Hafter
                Hparse initial_judgment) as (j1 & H1 & Hf).
    rewrite (parse_line_sets Status line _ j1 Hline H1) in Hf.
    destruct (field_text_defined Status line Hline) as [v Hv].
    rewrite Hv in Hf |- *. simpl in Hf. congruence.
Qed.

Lemma oracle_status_verbatim_witness :
  exists run,
    compare_segments (scripted answer_regular) demo_template demo_filled tt
    = Some run
    /\ exists rec response,
         PyDict.get (comparison run) "1. Scope:" = Some rec
         /\ In (mkCall "1. Scope:"
                  (prompt (unlines ["1. Scope:"; "Describe the work."])
                     (PyDict.get_default demo_filled "1. Scope:" ""))
                  response)
               (calls run)
         /\ (Forall (fun l => has_prefix Status l = false)
               (PyStr.splitlines response) ->
             status rec = "Other Issue")
         /\ (forall before line after,
               PyStr.splitlines response = before ++ line :: after ->
               has_prefix Status line = true ->
               Forall (fun l => has_prefix Status l = false) after ->
               field_text line = Some (status rec)).
Proof.
  eexists. split; [vm_compute; reflexivity|].
  apply (oracle_status_verbatim unit (scripted answer_regular)
           demo_template demo_filled tt _ "1. Scope:"
           (unlines ["1. Scope:"; "Describe the work."])).
  - solve_wf.
  - vm_compute. reflexivity.
  - simpl. tauto.
  - vm_compute. discriminate.
  - vm_compute. discriminate.
Defined.

(** C4, as the claim states it, fails: a match percentage outside
    0..100 in the answer is stored as it is. *)
Lemma match_percent_beyond_100 :
  exists run rec,
    compare_segments (scripted answer_unrecognized) demo_template demo_filled tt
    = Some run
    /\ PyDict.get (comparison run) "1. Scope:" = Some rec
    /\ match_percent rec = 150%Z
    /\ ~ (0 <= match_percent rec <= 100)%Z.
Proof.
  do 2 eexists.
  split; [vm_compute; reflexivity|].
  split; [vm_compute; reflexivity|].
  split; [reflexivity|].
  simpl. lia.
Qed.

(** A number followed by a unit separator is nothing that [int] reads,
    although [str.strip] would remove the separator: the match
    percentage falls back to 0. *)
Lemma percent_of_unit_separator :
  PyStr.int (String "5" (String (ascii_of_nat 31) "")) = None
  /\ percent_of ("Match Percentage: 5" ++ String (ascii_of_nat 31) "%") = 0%Z
  /\ percent_of "Match Percentage:  85 %" = 85%Z.
Proof. vm_compute. repeat split. Qed.

(** C4, amended. The match percentage of every record is an integer:
    0, 100, or the integer that [int] reads from the text after the
    colon of a match percentage line of the answer given for the
    section, with the percent signs removed; it is not brought into
    0..100. *)
Theorem match_percent_origin :
  forall (World : Type) (chat_completion : World -> string -> option (string * World))
         (template_map filled_map : SegmentMap) (w : World) (run : Run World)
         section rec,
    PyDict.wf template_map ->
    compare_segments chat_completion template_map filled_map w = Some run ->
    PyDict.get (comparison run) section = Some rec ->
    match_percent rec = 0%Z
    \/ match_percent rec = 100%Z
    \/ exists c line v,
         In c (calls run) /\ call_section c = section
         /\ In line (PyStr.splitlines (call_response c))
         /\ has_prefix MatchPercentage line = true
         /\ field_text line = Some v
         /\ PyStr.int (PyStr.remove_percent v) = Some (match_percent rec).
Proof.
  intros World chat_completion template_map filled_map w run section rec
    Hwf Hrun Hrec.
  destruct (compare_segments_keys _ _ _ _ _ _ _ Hrun Hrec) as [content Hin].
  destruct (compare_segments_entry _ _ _ _ _ _ _ Hwf Hrun Hin) as (j & Hget & Hv).
  rewrite Hget in Hrec. injection Hrec as <-. simpl.
  destruct Hv as [_ -> _ | _ _ -> _ | response parsed _ _ Hcall Hparse ->];
    [now left | right; now left |].
  destruct (default_remediation_keeps parsed) as (_ & -> & _).
  destruct (parse_lines_percent _ _ _ Hparse) as [H0 | (line & Hl & Hp & Hval)];
    [now left|].
  destruct (field_text_defined _ line Hp) as [v Hv].
  unfold percent_of in Hval. rewrite Hv in Hval.
  destruct (PyStr.int (PyStr.remove_percent v)) as [n|] eqn:Hint; [|now left].
  right. right. eexists. exists line, v.
  split; [exact Hcall|]. simpl. repeat split; try assumption. congruence.
Qed.

Lemma match_percent_origin_witness :
  exists run rec,
    compare_segments (scripted answer_regular) demo_template demo_filled tt
    = Some run
    /\ PyDict.get (comparison run) "1. Scope:" = Some rec
    /\ (match_percent rec = 0%Z
        \/ match_percent rec = 100%Z
        \/ exists c line v,
             In c (calls run) /\ call_section c = "1. Scope:"
             /\ In line (PyStr.splitlines (call_response c))
             /\ has_prefix MatchPercentage line = true
             /\ field_text line = Some v
             /\ PyStr.int (PyStr.remove_percent v) = Some (match_percent rec)).
Proof.
  do 2 eexists.
  split; [vm_compute; reflexivity|].
  split; [vm_compute; reflexivity|].
  apply (match_percent_origin unit (scripted answer_regular)
           demo_template demo_filled tt _ "1. Scope:").
  - solve_wf.
  - vm_compute. reflexivity.
  - vm_compute. reflexivity.
Defined.

(** C6, as the claim states it, fails: the service may answer with the
    status [Missing] for a filled text that is not blank. *)
Lemma missing_status_with_filled_text :
  exists run rec,
    compare_segments (scripted answer_missing) demo_template demo_filled tt
    = Some run
    /\ PyDict.get (comparison run) "1. Scope:" = Some rec
    /\ status rec = "Missing"
    /\ PyStr.strip (filled rec) <> ""
    /\ ~ (status rec = "Missing"
          <-> match_percent rec = 0%Z /\ PyStr.strip (filled rec) = "").
Proof.
  do 2 eexists.
  split; [vm_compute; reflexivity|].
  split; [vm_compute; reflexivity|].
  split; [reflexivity|].
  assert (H : PyStr.strip (unlines ["1. Scope:"; "We paint the fence."]) <> "")
    by (vm_compute; discriminate).
  split; [exact H|]. simpl. intros [Hto _]. apply H. now apply Hto.
Qed.

(** C6, amended. A record whose filled text is empty or white space has
    status [Missing] and match percentage 0. Conversely, a record with
    status [Missing] either has a blank filled text and match
    percentage 0, or comes from an answer of the service whose status
    is [Missing]. *)
Theorem missing_status_characterised :
  forall (World : Type) (chat_completion : World -> string -> option (string * World))
         (template_map filled_map : SegmentMap) (w : World) (run : Run World)
         section rec,
    PyDict.wf template_map ->
    compare_segments chat_completion template_map filled_map w = Some run ->
    PyDict.get (comparison run) section = Some rec ->
    (PyStr.strip (filled rec) = "" ->
     status rec = "Missing" /\ match_percent rec = 0%Z)
    /\ (status rec = "Missing" ->
        (PyStr.strip (filled rec) = "" /\ match_percent rec = 0%Z)
        \/ exists c parsed,
             In c (calls run) /\ call_section c = section
             /\ parse_response (PyStr.splitlines (call_response c)) = Some parsed
             /\ j_status parsed = "Missing").
Proof.
  intros World chat_completion template_map filled_map w run section rec
    Hwf Hrun Hrec.
  destruct (compare_segments_keys _ _ _ _ _ _ _ Hrun Hrec) as [content Hin].
  destruct (compare_segments_entry _ _ _ _ _ _ _ Hwf Hrun Hin) as (j & Hget & Hv).
  rewrite Hget in Hrec. injection Hrec as <-. simpl.
  destruct Hv as [Hb -> _ | Hne _ -> _ | response parsed Hne _ Hcall Hparse ->].
  - simpl. split; [tauto|]. intros _. now left.
  - simpl. split; [contradiction | discriminate].
  - split; [contradiction|].
    destruct (default_remediation_keeps parsed) as (-> & _ & _).
    intros Hs. right. eexists. exists parsed.
    split; [exact Hcall|]. simpl. auto.
Qed.

Lemma missing_status_characterised_witness :
  exists run rec,
    compare_segments (scripted answer_missing) demo_template demo_filled tt
    = Some run
    /\ PyDict.get (comparison run) "2. Budget:" = Some rec
    /\ (PyStr.strip (filled rec) = "" ->
        status rec = "Missing" /\ match_percent rec = 0%Z)
    /\ (status rec = "Missing" ->
        (PyStr.strip (filled rec) = "" /\ match_percent rec = 0%Z)
        \/ exists c parsed,
             In c (calls run) /\ call_section c = "2. Budget:"
             /\ parse_response (PyStr.splitlines (call_response c)) = Some parsed
             /\ j_status parsed = "Missing").
Proof.
  do 2 eexists.
  split; [vm_compute; reflexivity|].
  split; [vm_compute; reflexivity|].
  apply (missing_status_characterised unit (scripted answer_missing)
           demo_template demo_filled tt _ "2. Budget:").
  - solve_wf.
  - vm_compute. reflexivity.
  - vm_compute. reflexivity.
Defined.

(** ** White space and trimming *)

Lemma lstrip_empty s : PyStr.lstrip s = "" <-> blank s = true.
Proof.
  induction s as [|c s IH]; simpl; [tauto|].
  destruct (PyChar.is_space c); simpl; [exact IH|].
  split; discriminate.
Qed.

Lemma rstrip_empty s : PyStr.rstrip s = "" <-> blank s = true.
Proof.
  induction s as [|c s IH]; simpl; [tauto|].
  destruct (PyChar.is_space c); simpl.
  - destruct (PyStr.rstrip s) eqn:E; simpl.
    + split; [intros _; now apply IH | reflexivity].
    + split; [discriminate|]. intros H. apply IH in H. discriminate.
  - split; discriminate.
Qed.

Lemma blank_lstrip s : blank (PyStr.lstrip s) = blank s.
Proof.
  induction s as [|c s IH]; simpl; [reflexivity|].
  destruct (PyChar.is_space c) eqn:E; simpl; [exact IH|].
  now rewrite E.
Qed.

Lemma strip_empty s : PyStr.strip s = "" <-> blank s = true.
Proof.
  unfold PyStr.strip. rewrite rstrip_empty, blank_lstrip. tauto.
Qed.

Lemma blank_app a b : blank (a ++ b) = blank a && blank b.
Proof.
  induction a as [|c a IH]; simpl; [reflexivity|].
  rewrite IH. now rewrite andb_assoc.
Qed.

(** A text that starts with a line that is not blank is not blank. *)
Lemma strip_join_first line rest :
  PyStr.strip line <> "" -> PyStr.strip (PyStr.join PyStr.nl (line :: rest)) <> "".
Proof.
  intros Hline Hjoin. apply Hline. apply strip_empty. apply strip_empty in Hjoin.
  destruct rest as [|r rest]; [exact Hjoin|].
  rewrite join_cons in Hjoin by discriminate.
  rewrite blank_app in Hjoin. now apply andb_true_iff in Hjoin.
Qed.

Lemma heading_not_blank line : is_heading line = true -> PyStr.strip line <> "".
Proof.
  unfold is_heading. intros H E. rewrite E in H. vm_compute in H. discriminate.
Qed.

(** ** Segmentation: keys and shape of the sections *)

Lemma set_forall {V} (P : string * V -> Prop) (d : PyDict.dict V) k v :
  Forall P d -> P (k, v) -> Forall P (PyDict.set d k v).
Proof.
  intros Hd Hkv. induction Hd as [|[k0 v0] d H0 Hd IH]; simpl.
  - constructor; [assumption | constructor].
  - destruct (String.eqb k0 k) eqn:E.
    + apply String.eqb_eq in E. subst k0. constructor; assumption.
    + constructor; assumption.
Qed.

Lemma set_wf {V} (d : PyDict.dict V) k v : PyDict.wf d -> PyDict.wf (PyDict.set d k v).
Proof.
  unfold PyDict.wf. intros Hd. rewrite keys_set.
  destruct (in_dec string_dec k (PyDict.keys d)) as [Hin | Hout]; [assumption|].
  apply NoDup_app; [assumption | repeat constructor; simpl; tauto |].
  intros x Hx [<- | []]. contradiction.
Qed.

Lemma in_keys_set {V} (d : PyDict.dict V) k v x :
  In x (PyDict.keys (PyDict.set d k v)) <-> x = k \/ In x (PyDict.keys d).
Proof.
  rewrite keys_set.
  destruct (in_dec string_dec k (PyDict.keys d)) as [Hin | Hout].
  - split; [tauto|]. intros [-> | H]; assumption.
  - rewrite in_app_iff. simpl. intuition.
Qed.

Lemma set_head {V} (d : PyDict.dict V) h v0 rest k v :
  d = (h, v0) :: rest ->
  exists v1 rest1, PyDict.set d k v = (h, v1) :: rest1.
Proof.
  intros ->. simpl. destruct (String.eqb h k); eauto.
Qed.

(** What the loop keeps from any state it starts in. *)
Lemma segment_loop_invariant lines :
  forall segments current result,
    segment_loop lines segments current = Some result ->
    (PyDict.wf segments -> PyDict.wf result)
    /\ (Forall section_shape segments -> Forall section_shape result)
    /\ (forall h v rest, segments = (h, v) :: rest ->
          exists v' rest', result = (h, v') :: rest')
    /\ (forall k, In k (PyDict.keys result)
                  <-> In k (PyDict.keys segments)
                      \/ exists line, In line lines /\ is_heading line = true
                                      /\ PyStr.strip line = k).
Proof.
  induction lines as [|line rest IH]; intros segments current result.
  - simpl. intros [= <-]. repeat split; auto.
    + intros h v r ->. eauto.
    + intros [H | (l & [] & _)]. exact H.
  - destruct (is_heading line) eqn:Hh.
    + rewrite segment_loop_heading by assumption. intros Hrun.
      destruct (IH _ _ _ Hrun) as (Hwf & Hshape & Hhead & Hkeys).
      repeat split.
      * intros H. apply Hwf. now apply set_wf.
      * intros H. apply Hshape. apply set_forall; [assumption|].
        right. exists line, []. simpl. auto.
      * intros h v r Hseg.
        destruct (set_head segments h v r (PyStr.strip line) [line] Hseg)
          as (v1 & r1 & Hset).
        exact (Hhead h v1 r1 Hset).
      * intros Hk. apply Hkeys in Hk as [Hk | (l & Hl & Hlh & Hls)].
        -- apply in_keys_set in Hk as [-> | Hk]; [|now left].
           right. exists line. simpl. auto.
        -- right. exists l. simpl. auto.
      * intros [Hk | (l & [<- | Hl] & Hlh & Hls)]; apply Hkeys.
        -- left. apply in_keys_set. now right.
        -- left. apply in_keys_set. now left.
        -- right. eauto.
    + simpl. rewrite Hh.
      destruct (PyDict.get segments current) as [buffer|] eqn:G; [|discriminate].
      intros Hrun. destruct (IH _ _ _ Hrun) as (Hwf & Hshape & Hhead & Hkeys).
      repeat split.
      * intros H. apply Hwf. now apply set_wf.
      * intros H. apply Hshape. apply set_forall; [assumption|].
        pose proof (get_some_in _ _ _ G) as Hin.
        rewrite Forall_forall in H.
        destruct (H _ Hin) as [[Hk Hp] | (l & r & Hb & Hl & Hs & Hr)].
        -- left. simpl in *. split; [assumption|].
           apply Forall_app. split; [assumption|].
           constructor; [assumption | constructor].
        -- right. simpl in *. subst buffer. exists l, (r ++ [line]).
           repeat split; try assumption. apply Forall_app. split; [assumption|].
           constructor; [assumption | constructor].
      * intros h v r Hseg.
        destruct (set_head segments h v r current (buffer ++ [line]) Hseg)
          as (v1 & r1 & Hset).
        exact (Hhead h v1 r1 Hset).
      * intros Hk. apply Hkeys in Hk as [Hk | (l & Hl & Hlh & Hls)].
        -- apply in_keys_set in Hk as [-> | Hk]; [|now left].
           left. exact (get_some_in_keys _ _ _ G).
        -- right. exists l. simpl. auto.
      * intros [Hk | (l & [<- | Hl] & Hlh & Hls)]; apply Hkeys.
        -- left. apply in_keys_set. now right.
        -- congruence.
        -- right. eauto.
Qed.

Lemma keys_map_values {V W} (f : V -> W) (d : PyDict.dict V) :
  PyDict.keys (PyDict.map_values f d) = PyDict.keys d.
Proof.
  unfold PyDict.keys, PyDict.map_values. rewrite map_map. apply map_ext. reflexivity.
Qed.

(** X1. The section [Header] holds the lines before the first heading
    candidate, whatever follows: no heading can reset it. *)
Theorem header_holds_leading_lines :
  forall text,
  exists segments,
    segment_document text = Some segments
    /\ PyDict.get segments "Header"
       = Some (PyStr.join PyStr.nl (body_lines (PyStr.splitlines text))).
Proof.
  intros text. unfold segment_document, segment_buffers.
  destruct (segment_loop_keeps (PyStr.splitlines text) [("Header", [])]
              "Header" "Header" []) as (result & Hrun & Hget).
  - simpl. discriminate.
  - reflexivity.
  - intros line _ Hh. now apply heading_not_Header.
  - rewrite Hrun. eexists. split; [reflexivity|].
    rewrite get_map_values, Hget. reflexivity.
Qed.

(** X2. The keys of a segmentation are pairwise different, the first
    is [Header], and the others are exactly the trimmed texts of the
    heading candidate lines of the input. *)
Theorem segment_keys :
  forall text,
  exists segments,
    segment_document text = Some segments
    /\ PyDict.wf segments
    /\ (exists header rest, segments = ("Header", header) :: rest)
    /\ forall key,
         In key (PyDict.keys segments)
         <-> key = "Header"
             \/ exists line, In line (PyStr.splitlines text)
                             /\ is_heading line = true
                             /\ PyStr.strip line = key.
Proof.
  intros text. destruct (segment_buffers_total text) as [buffers Hb].
  unfold segment_document. rewrite Hb. eexists. split; [reflexivity|].
  destruct (segment_loop_invariant _ _ _ _ Hb) as (Hwf & _ & Hhead & Hkeys).
  split; [|split].
  - unfold PyDict.wf. rewrite keys_map_values. apply Hwf.
    unfold PyDict.wf. simpl. repeat constructor. simpl. tauto.
  - destruct (Hhead _ _ _ eq_refl) as (v' & rest' & ->). simpl. eauto.
  - intros key. rewrite keys_map_values, Hkeys. simpl. intuition.
Qed.

(** X3. Every section other than [Header] starts with its heading
    line, goes on with lines that are no heading candidates, and is
    not blank. *)
Theorem section_starts_with_heading :
  forall text,
  exists segments,
    segment_document text = Some segments
    /\ forall key value,
         PyDict.get segments key = Some value ->
         key <> "Header" ->
         exists line rest,
           is_heading line = true
           /\ PyStr.strip line = key
           /\ Forall (fun l => is_heading l = false) rest
           /\ value = PyStr.join PyStr.nl (line :: rest)
           /\ PyStr.strip value <> "".
Proof.
  intros text. destruct (segment_buffers_total text) as [buffers Hb].
  unfold segment_document. rewrite Hb. eexists. split; [reflexivity|].
  intros key value Hget Hkey. rewrite get_map_values in Hget.
  destruct (PyDict.get buffers key) as [buffer|] eqn:G; [|discriminate].
  injection Hget as <-.
  destruct (segment_loop_invariant _ _ _ _ Hb) as (_ & Hshape & _ & _).
  assert (Hall : Forall section_shape buffers).
  { apply Hshape. constructor; [|constructor]. left. split; [reflexivity|constructor]. }
  rewrite Forall_forall in Hall.
  destruct (Hall _ (get_some_in _ _ _ G))
    as [[Hk _] | (line & rest & Hbuf & Hl & Hs & Hr)].
  - simpl in Hk. contradiction.
  - simpl in Hbuf, Hs. subst buffer. exists line, rest.
    repeat split; try assumption.
    apply strip_join_first. now apply heading_not_blank.
Qed.

Lemma section_starts_with_heading_witness :
  exists segments,
    segment_document repeated_summary = Some segments
    /\ exists line rest,
         is_heading line = true
         /\ PyStr.strip line = "Details:"
         /\ Forall (fun l => is_heading l = false) rest
         /\ unlines ["Details:"; "body"] = PyStr.join PyStr.nl (line :: rest)
         /\ PyStr.strip (unlines ["Details:"; "body"]) <> "".
Proof.
  destruct (section_starts_with_heading repeated_summary) as (segments & Hseg & Hall).
  exists segments. split; [exact Hseg|].
  apply Hall; [|discriminate].
  vm_compute in Hseg. injection Hseg as <-. reflexivity.
Defined.

(** ** Comparison: the report as a whole *)

Section ReportFacts.

Context {World : Type}.
Variable chat_completion : World -> string -> option (string * World).

(** A property of records that every branch establishes holds in the
    whole report. *)
Lemma compare_loop_all (P : string * ComparisonRecord -> Prop) items filled_map :
  (forall section content j,
     In (section, content) items ->
     (j = missing_judgment \/ j = sufficient_judgment
      \/ exists parsed, j = default_remediation parsed) ->
     P (section, record_of content (PyDict.get_default filled_map section "") j)) ->
  forall st st',
    Forall P (comparison st) ->
    compare_loop chat_completion items filled_map st = Some st' ->
    Forall P (comparison st').
Proof.
  induction items as [|[section content] rest IH]; intros HP st st' Hst; simpl.
  - intros [= <-]. exact Hst.
  - destruct (judge chat_completion section content
                (PyDict.get_default filled_map section "") st)
      as [[j st1]|] eqn:Hj; [|discriminate].
    apply IH.
    + intros s c j' Hin. apply HP. now right.
    + simpl. apply judge_branches in Hj as [Hcmp Hcase]. rewrite Hcmp.
      apply set_forall; [assumption|]. apply HP; [now left|].
      destruct Hcase as [(_ & -> & _) | [(_ & _ & -> & _) | (_ & _ & r & p & _ & _ & ->)]];
        eauto.
Qed.

(** The keys of the report are the keys of the template, in its
    order. *)
Lemma compare_loop_keys items filled_map :
  forall st st',
    NoDup (PyDict.keys (comparison st) ++ PyDict.keys items) ->
    compare_loop chat_completion items filled_map st = Some st' ->
    PyDict.keys (comparison st') = PyDict.keys (comparison st) ++ PyDict.keys items.
Proof.
  induction items as [|[section content] rest IH]; intros st st' Hnd; simpl.
  - intros [= <-]. now rewrite app_nil_r.
  - destruct (judge chat_completion section content
                (PyDict.get_default filled_map section "") st)
      as [[j st1]|] eqn:Hj; [|discriminate].
    apply judge_branches in Hj as [Hcmp _].
    assert (Hfresh : ~ In section (PyDict.keys (comparison st))).
    { simpl in Hnd. apply NoDup_remove_2 in Hnd. intros H. apply Hnd.
      apply in_or_app. now left. }
    assert (Hkeys : PyDict.keys (PyDict.set (comparison st1) section
                                   (record_of content
                                      (PyDict.get_default filled_map section "") j))
                    = PyDict.keys (comparison st) ++ [section]).
    { rewrite Hcmp, set_fresh by assumption.
      unfold PyDict.keys. rewrite map_app. reflexivity. }
    intros Hrun.
    assert (Hnd' : NoDup ((PyDict.keys (comparison st) ++ [section])
                          ++ PyDict.keys rest)).
    { rewrite <- app_assoc. exact Hnd. }
    rewrite <- Hkeys in Hnd'. rewrite (IH (mkRun _ _ _) _ Hnd' Hrun).
    cbn [comparison].
    rewrite Hkeys, <- app_assoc. reflexivity.
Qed.

(** The requests follow the template: one for each section that needs
    a judgment, in the order of the template. *)
Lemma compare_loop_requests items filled_map :
  forall st st',
    compare_loop chat_completion items filled_map st = Some st' ->
    exists new,
      calls st' = calls st ++ new
      /\ map call_section new = map fst (filter (needs_judgment filled_map) items)
      /\ map call_prompt new
         = map (fun item =>
                  prompt (snd item) (PyDict.get_default filled_map (fst item) ""))
             (filter (needs_judgment filled_map) items).
Proof.
  induction items as [|[section content] rest IH]; intros st st'; simpl.
  - intros [= <-]. exists []. now rewrite app_nil_r.
  - destruct (judge chat_completion section content
                (PyDict.get_default filled_map section "") st)
      as [[j st1]|] eqn:Hj; [|discriminate].
    intros Hrun. apply IH in Hrun as (new & Hcalls & Hsec & Hpr).
    cbn [calls] in Hcalls. cbn [filter].
    apply judge_branches in Hj as [_ [H | [H | H]]].
    + destruct H as (Hb & _ & Hc).
      assert (Hn : needs_judgment filled_map (section, content) = false).
      { unfold needs_judgment. cbn [fst snd]. rewrite Hb. reflexivity. }
      rewrite Hn. exists new. rewrite Hcalls, Hc. auto.
    + destruct H as (Hb & He & _ & Hc).
      assert (Hn : needs_judgment filled_map (section, content) = false).
      { unfold needs_judgment. cbn [fst snd]. rewrite He, String.eqb_refl.
        apply andb_false_r. }
      rewrite Hn. exists new. rewrite Hcalls, Hc. auto.
    + destruct H as (Hb & He & response & parsed & Hc & _ & _).
      assert (Hn : needs_judgment filled_map (section, content) = true).
      { unfold needs_judgment. cbn [fst snd].
        apply String.eqb_neq in He. rewrite He.
        destruct (PyStr.strip (PyDict.get_default filled_map section ""));
          [contradiction | reflexivity]. }
      rewrite Hn. eexists (_ :: new). rewrite Hcalls, Hc, <- app_assoc.
      cbn [map app fst snd call_section call_prompt].
      split; [reflexivity|]. split; f_equal; assumption.
Qed.

(** When the service is down, the run ends exactly when no section
    needs a judgment. *)
Lemma compare_loop_unreachable items filled_map :
  (forall w request, chat_completion w request = None) ->
  forall st,
    compare_loop chat_completion items filled_map st = None
    <-> exists item, In item items /\ needs_judgment filled_map item = true.
Proof.
  intros Hdown. induction items as [|[section content] rest IH]; intros st; simpl.
  - split; [discriminate | intros (item & [] & _)].
  - unfold judge. unfold needs_judgment at 1. simpl fst. simpl snd.
    destruct (PyStr.is_empty (PyStr.strip (PyDict.get_default filled_map section "")))
      eqn:Hb.
    + rewrite IH. split.
      * intros (item & Hin & Hn). eauto.
      * intros (item & [<- | Hin] & Hn); [|eauto].
        unfold needs_judgment in Hn. simpl in Hn. rewrite Hb in Hn. discriminate.
    + destruct (String.eqb (PyStr.strip (PyDict.get_default filled_map section ""))
                  (PyStr.strip content)) eqn:He.
      * rewrite IH. split.
        -- intros (item & Hin & Hn). eauto.
        -- intros (item & [<- | Hin] & Hn); [|eauto].
           unfold needs_judgment in Hn. simpl in Hn. rewrite Hb, He in Hn.
           discriminate.
      * rewrite Hdown. split; [|reflexivity]. intros _.
        exists (section, content). split; [now left|].
        unfold needs_judgment. simpl. now rewrite Hb, He.
Qed.

(** When no section needs a judgment, the run ends without a request,
    whatever the service is. *)
Lemma compare_loop_quiet items filled_map :
  (forall item, In item items -> needs_judgment filled_map item = false) ->
  forall st, exists st',
    compare_loop chat_completion items filled_map st = Some st'
    /\ calls st' = calls st /\ world st' = world st.
Proof.
  induction items as [|[section content] rest IH]; intros Hq st; simpl.
  - eauto.
  - pose proof (Hq _ (or_introl eq_refl)) as Hn. unfold needs_judgment in Hn.
    simpl in Hn. unfold judge.
    destruct (PyStr.is_empty (PyStr.strip (PyDict.get_default filled_map section "")))
      eqn:Hb.
    + destruct (IH (fun item H => Hq item (or_intror H))
                  (mkRun (PyDict.set (comparison st) section
                            (record_of content
                               (PyDict.get_default filled_map section "")
                               missing_judgment))
                     (calls st) (world st))) as (st' & Hrun & Hc & Hw).
      exists st'. auto.
    + simpl in Hn. apply negb_false_iff in Hn. rewrite Hn.
      destruct (IH (fun item H => Hq item (or_intror H))
                  (mkRun (PyDict.set (comparison st) section
                            (record_of content
                               (PyDict.get_default filled_map section "")
                               sufficient_judgment))
                     (calls st) (world st))) as (st' & Hrun & Hc & Hw).
      exists st'. auto.
Qed.

End ReportFacts.

(** ** Comparison: further properties *)

(** X4. The report has the keys of the template, in its order; every
    record repeats the template text of its section and the filled
    text looked up under the same name, the empty text when the filled
    document has no such section. *)
Theorem report_follows_template :
  forall (World : Type) (chat_completion : World -> string -> option (string * World))
         (template_map filled_map : SegmentMap) (w : World) (run : Run World),
    PyDict.wf template_map ->
    compare_segments chat_completion template_map filled_map w = Some run ->
    PyDict.keys (comparison run) = PyDict.keys template_map
    /\ forall section rec,
         PyDict.get (comparison run) section = Some rec ->
         In (section, template rec) template_map
         /\ filled rec = PyDict.get_default filled_map section "".
Proof.
  intros World chat_completion template_map filled_map w run Hwf Hrun. split.
  - exact (compare_loop_keys chat_completion template_map filled_map
             (mkRun [] [] w) run Hwf Hrun).
  - intros section rec Hrec.
    destruct (compare_segments_keys _ _ _ _ _ _ _ Hrun Hrec) as [content Hin].
    destruct (compare_segments_entry _ _ _ _ _ _ _ Hwf Hrun Hin) as (j & Hget & _).
    rewrite Hget in Hrec. injection Hrec as <-. simpl. auto.
Qed.

Lemma report_follows_template_witness :
  exists run,
    compare_segments (scripted answer_regular) demo_template demo_filled tt = Some run
    /\ PyDict.keys (comparison run) = PyDict.keys demo_template.
Proof.
  eexists. split; [vm_compute; reflexivity|].
  refine (proj1 (report_follows_template unit (scripted answer_regular)
                   demo_template demo_filled tt _ _ _)).
  - solve_wf.
  - vm_compute. reflexivity.
Defined.

(** X5. The service is asked once for each template section whose
    filled text is neither blank nor equal to the template text after
    trimming, in the order of the template, with the request built
    from the two texts; for no other section. *)
Theorem requests_follow_template :
  forall (World : Type) (chat_completion : World -> string -> option (string * World))
         (template_map filled_map : SegmentMap) (w : World) (run : Run World),
    compare_segments chat_completion template_map filled_map w = Some run ->
    map call_section (calls run)
    = map fst (filter (needs_judgment filled_map) template_map)
    /\ map call_prompt (calls run)
       = map (fun item =>
                prompt (snd item) (PyDict.get_default filled_map (fst item) ""))
           (filter (needs_judgment filled_map) template_map).
Proof.
  intros World chat_completion template_map filled_map w run Hrun.
  destruct (compare_loop_requests chat_completion _ _ _ _ Hrun)
    as (new & Hcalls & Hsec & Hpr).
  simpl in Hcalls. rewrite Hcalls. auto.
Qed.

Lemma requests_follow_template_witness :
  exists run,
    compare_segments (scripted answer_regular) demo_template demo_filled tt = Some run
    /\ map call_section (calls run) = ["1. Scope:"].
Proof.
  eexists. split; [vm_compute; reflexivity|].
  refine (proj1 (requests_follow_template unit (scripted answer_regular)
                   demo_template demo_filled tt _ _)).
  vm_compute. reflexivity.
Defined.

(** X6. When the service fails on every request, the comparison ends
    with the exception, and without any report, exactly when some
    template section needs a judgment. *)
Theorem unreachable_service_aborts :
  forall (World : Type) (chat_completion : World -> string -> option (string * World))
         (template_map filled_map : SegmentMap) (w : World),
    (forall w' request, chat_completion w' request = None) ->
    compare_segments chat_completion template_map filled_map w = None
    <-> exists item, In item template_map /\ needs_judgment filled_map item = true.
Proof.
  intros World chat_completion template_map filled_map w Hdown.
  now apply compare_loop_unreachable.
Qed.

Lemma unreachable_service_aborts_witness :
  compare_segments unreachable demo_template demo_filled tt = None.
Proof.
  apply (unreachable_service_aborts unit unreachable demo_template demo_filled tt).
  - reflexivity.
  - exists ("1. Scope:", unlines ["1. Scope:"; "Describe the work."]).
    split; [simpl; tauto | vm_compute; reflexivity].
Defined.

(** X7. No record has an empty remediation. *)
Theorem remediation_never_empty :
  forall (World : Type) (chat_completion : World -> string -> option (string * World))
         (template_map filled_map : SegmentMap) (w : World) (run : Run World)
         section rec,
    compare_segments chat_completion template_map filled_map w = Some run ->
    PyDict.get (comparison run) section = Some rec ->
    remediation rec <> "".
Proof.
  intros World chat_completion template_map filled_map w run section rec Hrun Hrec.
  assert (Hall : Forall (fun entry => remediation (snd entry) <> "")
                   (comparison run)).
  { apply (compare_loop_all chat_completion
             (fun entry => remediation (snd entry) <> "")
             template_map filled_map) with (st := mkRun [] [] w);
      [|constructor|exact Hrun].
    intros s c j _ Hj. simpl.
    destruct Hj as [-> | [-> | (parsed & ->)]]; try discriminate.
    unfold default_remediation.
    destruct (PyStr.is_empty (j_remediation parsed)) eqn:E; simpl; [discriminate|].
    intros H. apply is_empty_true in H. congruence. }
  rewrite Forall_forall in Hall. exact (Hall _ (get_some_in _ _ _ Hrec)).
Qed.

Lemma remediation_never_empty_witness :
  exists run rec,
    compare_segments (scripted answer_missing) demo_template demo_filled tt = Some run
    /\ PyDict.get (comparison run) "1. Scope:" = Some rec
    /\ remediation rec <> "".
Proof.
  do 2 eexists.
  split; [vm_compute; reflexivity|].
  split; [vm_compute; reflexivity|].
  eapply (remediation_never_empty unit (scripted answer_missing)
            demo_template demo_filled tt) with (section := "1. Scope:").
  - vm_compute. reflexivity.
  - vm_compute. reflexivity.
Defined.

(** X8. Comparing a segment map with itself asks the service nothing
    and cannot fail: every section that is not blank is [Sufficient]
    with 100, and every blank section, such as an empty [Header], is
    reported as [Missing] with 0 although the two documents agree. *)
Theorem self_comparison :
  forall (World : Type) (chat_completion : World -> string -> option (string * World))
         (segments : SegmentMap) (w : World),
    PyDict.wf segments ->
    exists run,
      compare_segments chat_completion segments segments w = Some run
      /\ calls run = [] /\ world run = w
      /\ forall section rec,
           PyDict.get (comparison run) section = Some rec ->
           filled rec = template rec
           /\ ((PyStr.strip (template rec) <> ""
                /\ status rec = "Sufficient" /\ match_percent rec = 100%Z)
               \/ (PyStr.strip (template rec) = ""
                   /\ status rec = "Missing" /\ match_percent rec = 0%Z)).
Proof.
  intros World chat_completion segments w Hwf.
  assert (Hself : forall section content,
             In (section, content) segments ->
             PyDict.get_default segments section "" = content).
  { intros section content Hin. unfold PyDict.get_default.
    now rewrite (get_in_wf _ _ _ Hwf Hin). }
  destruct (compare_loop_quiet chat_completion segments segments) with
    (st := mkRun (World := World) [] [] w) as (run & Hrun & Hc & Hw).
  { intros [section content] Hin. unfold needs_judgment. cbn [fst snd].
    rewrite (Hself _ _ Hin), String.eqb_refl. apply andb_false_r. }
  exists run. split; [exact Hrun|]. split; [exact Hc|]. split; [exact Hw|].
  intros section rec Hrec.
  destruct (compare_segments_keys _ _ _ _ _ _ _ Hrun Hrec) as [content Hin].
  destruct (compare_segments_entry _ _ _ _ _ _ _ Hwf Hrun Hin) as (j & Hget & Hv).
  rewrite Hget in Hrec. injection Hrec as <-. simpl.
  rewrite (Hself _ _ Hin) in *. split; [reflexivity|].
  destruct Hv as [Hb -> _ | Hne _ -> _ | response parsed _ Hd _ _ _].
  - right. auto.
  - left. auto.
  - contradiction.
Qed.

Lemma self_comparison_witness :
  exists run,
    compare_segments unreachable demo_template demo_template tt = Some run
    /\ calls run = [] /\ world run = tt.
Proof.
  destruct (self_comparison unit unreachable demo_template tt) as (run & H1 & H2 & H3 & _).
  - solve_wf.
  - exists run. auto.
Defined.

(** ** Segmentation and comparison together *)

Lemma heading_section_not_blank text segments line :
  segment_document text = Some segments ->
  In line (PyStr.splitlines text) ->
  is_heading line = true ->
  exists value,
    PyDict.get segments (PyStr.strip line) = Some value
    /\ PyStr.strip value <> "".
Proof.
  unfold segment_document. intros Hseg Hin Hh.
  destruct (segment_buffers text) as [buffers|] eqn:Hb; [|discriminate].
  injection Hseg as <-.
  destruct (segment_loop_invariant _ _ _ _ Hb) as (_ & Hshape & _ & Hkeys).
  assert (Hkey : In (PyStr.strip line) (PyDict.keys buffers)).
  { apply Hkeys. right. eauto. }
  destruct (PyDict.get buffers (PyStr.strip line)) as [buffer|] eqn:G.
  2:{ apply get_none_iff in G. contradiction. }
  rewrite get_map_values, G. eexists. split; [reflexivity|].
  assert (Hall : Forall section_shape buffers).
  { apply Hshape. constructor; [|constructor]. left. split; [reflexivity|constructor]. }
  rewrite Forall_forall in Hall.
  destruct (Hall _ (get_some_in _ _ _ G))
    as [[Hk _] | (l & rest & Hbuf & Hl & Hs & Hr)].
  - simpl in Hk. now apply heading_not_Header in Hh.
  - simpl in Hbuf. subst buffer. apply strip_join_first. now apply heading_not_blank.
Qed.

(** X9. A template section whose heading occurs in the filled text is
    never reported through the missing branch, even when nothing
    follows the heading there: its filled text contains the heading
    line, so the record is the exact match one or comes from an answer
    of the service. *)
Theorem kept_heading_not_missing :
  forall (World : Type) (chat_completion : World -> string -> option (string * World))
         (template_map : SegmentMap) (filled_text : string) (w : World)
         (run : Run World) section content line,
    PyDict.wf template_map ->
    In (section, content) template_map ->
    In line (PyStr.splitlines filled_text) ->
    is_heading line = true ->
    PyStr.strip line = section ->
    compare_to_template chat_completion template_map filled_text w = Some run ->
    exists rec,
      PyDict.get (comparison run) section = Some rec
      /\ PyStr.strip (filled rec) <> ""
      /\ ((status rec = "Sufficient" /\ match_percent rec = 100%Z
           /\ not_asked section run)
          \/ exists response,
               In (mkCall section (prompt content (filled rec)) response)
                  (calls run)).
Proof.
  intros World chat_completion template_map filled_text w run section content line
    Hwf Hin Hline Hh Hs Hrun.
  unfold compare_to_template in Hrun.
  destruct (segment_document filled_text) as [filled_map|] eqn:Hseg; [|discriminate].
  destruct (heading_section_not_blank _ _ _ Hseg Hline Hh) as (value & Hget & Hnb).
  rewrite Hs in Hget.
  destruct (compare_segments_entry _ _ _ _ _ _ _ Hwf Hrun Hin) as (j & Hrec & Hv).
  assert (Hfc : PyDict.get_default filled_map section "" = value).
  { unfold PyDict.get_default. now rewrite Hget. }
  rewrite Hfc in *. eexists. split; [exact Hrec|]. simpl. split; [exact Hnb|].
  destruct Hv as [Hb _ _ | _ _ -> Hq | response parsed _ _ Hcall _ _].
  - contradiction.
  - left. auto.
  - right. eauto.
Qed.

Lemma kept_heading_not_missing_witness :
  exists run rec,
    compare_to_template (scripted answer_regular) demo_template
      scenario_filled_bare_heading tt = Some run
    /\ PyDict.get (comparison run) "2. Budget:" = Some rec
    /\ PyStr.strip (filled rec) <> "".
Proof.
  assert (Hrun : exists run,
             compare_to_template (scripted answer_regular) demo_template
               scenario_filled_bare_heading tt = Some run)
    by (eexists; vm_compute; reflexivity).
  destruct Hrun as [run Hrun].
  destruct (kept_heading_not_missing unit (scripted answer_regular) demo_template
              scenario_filled_bare_heading tt run
              "2. Budget:" (unlines ["2. Budget:"; "State the amount."]) "2. Budget:")
    as (rec & Hrec & Hnb & _).
  - solve_wf.
  - simpl. tauto.
  - vm_compute. tauto.
  - reflexivity.
  - reflexivity.
  - exact Hrun.
  - exists run, rec. auto.
Defined.

(** ** Reading the answer: lines without a field prefix *)

Lemma parse_line_unrecognized j line :
  recognized line = false -> parse_line j line = Some j.
Proof.
  unfold recognized, has_prefix. simpl. intros H.
  apply orb_false_elim in H as [H H4]. apply orb_false_elim in H as [H H3].
  apply orb_false_elim in H as [H1 H2].
  unfold parse_line. now rewrite H1, H2, H3, H4.
Qed.

Lemma parse_lines_filter lines :
  forall j, parse_lines lines j = parse_lines (filter recognized lines) j.
Proof.
  induction lines as [|line rest IH]; intros j; simpl; [reflexivity|].
  destruct (recognized line) eqn:E; simpl.
  - destruct (parse_line j line); [apply IH | reflexivity].
  - rewrite (parse_line_unrecognized j line E). apply IH.
Qed.

(** X10. Lines of the answer that start with none of the four field
    prefixes are ignored: the answer is read as if they were not
    there. *)
Theorem unrecognized_lines_ignored :
  forall lines, parse_response lines = parse_response (filter recognized lines).
Proof. intros lines. apply parse_lines_filter. Qed.

Lemma parse_response_silent lines :
  Forall (fun l => recognized l = false) lines ->
  parse_response lines = Some initial_judgment.
Proof.
  intros H. unfold parse_response. rewrite parse_lines_filter.
  replace (filter recognized lines) with (@nil string); [reflexivity|].
  induction H as [|l ls Hl Hls IH]; simpl; [reflexivity|]. now rewrite Hl.
Qed.

(** X11. An answer in which no line starts with a field prefix, the
    empty answer included, gives the record of defaults: status
    [Other Issue], empty analysis, remediation [None provided.] and
    match percentage 0. *)
Theorem silent_answer_defaults :
  forall (World : Type) (chat_completion : World -> string -> option (string * World))
         (template_map filled_map : SegmentMap) (w : World) (run : Run World)
         section content,
    PyDict.wf template_map ->
    compare_segments chat_completion template_map filled_map w = Some run ->
    In (section, content) template_map ->
    needs_judgment filled_map (section, content) = true ->
    exists rec response,
      PyDict.get (comparison run) section = Some rec
      /\ In (mkCall section
               (prompt content (PyDict.get_default filled_map section ""))
               response)
            (calls run)
      /\ (Forall (fun l => recognized l = false) (PyStr.splitlines response) ->
          rec = mkRecord content (PyDict.get_default filled_map section "")
                  "Other Issue" "" "None provided." 0).
Proof.
  intros World chat_completion template_map filled_map w run section content
    Hwf Hrun Hin Hneed.
  unfold needs_judgment in Hneed. cbn [fst snd] in Hneed.
  apply andb_true_iff in Hneed as [Hb He].
  apply negb_true_iff in Hb, He. apply String.eqb_neq in He.
  destruct (compare_segments_entry _ _ _ _ _ _ _ Hwf Hrun Hin) as (j & Hget & Hv).
  destruct Hv as [Hblank _ _ | _ Heq _ _ | response parsed _ _ Hcall Hparse ->].
  - rewrite Hblank in Hb. discriminate.
  - contradiction.
  - eexists. exists response. split; [exact Hget|]. split; [exact Hcall|].
    intros Hsilent. rewrite (parse_response_silent _ Hsilent) in Hparse.
    injection Hparse as <-. reflexivity.
Qed.

Lemma silent_answer_defaults_witness :
  exists run,
    compare_segments (scripted "I cannot tell.") demo_template demo_filled tt
    = Some run
    /\ PyDict.get (comparison run) "1. Scope:"
       = Some (mkRecord (unlines ["1. Scope:"; "Describe the work."])
                 (unlines ["1. Scope:"; "We paint the fence."])
                 "Other Issue" "" "None provided." 0).
Proof.
  assert (Hrun : exists run,
             compare_segments (scripted "I cannot tell.") demo_template demo_filled tt
             = Some run)
    by (eexists; vm_compute; reflexivity).
  destruct Hrun as [run Hrun]. exists run. split; [exact Hrun|].
  destruct (silent_answer_defaults unit (scripted "I cannot tell.")
              demo_template demo_filled tt run "1. Scope:"
              (unlines ["1. Scope:"; "Describe the work."]))
    as (rec & response & Hrec & Hcall & Hdef).
  - solve_wf.
  - exact Hrun.
  - simpl. tauto.
  - vm_compute. reflexivity.
  - rewrite Hrec. f_equal. apply Hdef.
    vm_compute in Hrun. injection Hrun as <-.
    destruct Hcall as [Hcall | []]. injection Hcall as <-.
    vm_compute. repeat constructor.
Defined.

(** ** The result view *)

(** X12. A record whose status, in lower case, is none of the four
    filter options is drawn with the question mark and is hidden by
    every selection of filter options that is not empty; it is shown
    only when nothing is selected. *)
Theorem unknown_status_hidden_by_filters :
  forall (rec : ComparisonRecord) (selected_filters : list string),
    incl selected_filters filter_options ->
    ~ In (PyStr.lower (status rec)) (map PyStr.lower filter_options) ->
    status_icon (status rec) = IconQuestion
    /\ shown [] rec = true
    /\ (selected_filters <> [] -> shown selected_filters rec = false).
Proof.
  intros rec selected Hincl Hunknown. split; [|split; [reflexivity|]].
  - unfold status_icon.
    destruct (String.eqb (PyStr.lower (status rec)) "sufficient") eqn:E1.
    { apply String.eqb_eq in E1. exfalso. apply Hunknown. rewrite E1.
      vm_compute. tauto. }
    destruct (String.eqb (PyStr.lower (status rec)) "missing") eqn:E2.
    { apply String.eqb_eq in E2. exfalso. apply Hunknown. rewrite E2.
      vm_compute. tauto. }
    destruct (String.eqb (PyStr.lower (status rec)) "lacking information") eqn:E3.
    { apply String.eqb_eq in E3. exfalso. apply Hunknown. rewrite E3.
      vm_compute. tauto. }
    reflexivity.
  - intros Hsel. destruct selected as [|f fs]; [congruence|].
    unfold shown.
    destruct (existsb (String.eqb (PyStr.lower (status rec)))
                (map PyStr.lower (f :: fs))) eqn:E; [|reflexivity].
    apply existsb_exists in E as (x & Hx & Heq). apply String.eqb_eq in Heq.
    exfalso. apply Hunknown. rewrite Heq.
    apply in_map_iff in Hx as (g & <- & Hg). apply in_map. now apply Hincl.
Qed.

Lemma unknown_status_hidden_by_filters_witness :
  status_icon "Great" = IconQuestion
  /\ shown ["Sufficient"; "Other Issue"]
       (mkRecord "t" "f" "Great" "Looks fine." "None provided." 150) = false.
Proof.
  destruct (unknown_status_hidden_by_filters
              (mkRecord "t" "f" "Great" "Looks fine." "None provided." 150)
              ["Sufficient"; "Other Issue"]) as (Hicon & _ & Hhidden).
  - intros x [<- | [<- | []]]; simpl; tauto.
  - vm_compute. intuition discriminate.
  - split; [exact Hicon|]. apply Hhidden. discriminate.
Defined.

(** ** Uploaded files *)

Lemma lower_dot c : PyChar.lower c = "."%char -> c = "."%char.
Proof.
  destruct c as [[] [] [] [] [] [] [] []]; vm_compute; intros H;
    first [reflexivity | discriminate H].
Qed.

Lemma has_dot_lower s : has_dot (PyStr.lower s) = has_dot s.
Proof.
  induction s as [|c s IH]; simpl; [reflexivity|]. rewrite IH. f_equal.
  destruct (Ascii.eqb_spec (PyChar.lower c) ".") as [E | E].
  - apply lower_dot in E. subst c. reflexivity.
  - destruct (Ascii.eqb_spec c ".") as [-> | _]; [|reflexivity].
    exfalso. apply E. reflexivity.
Qed.

Lemma lower_app a b : PyStr.lower (a ++ b) = (PyStr.lower a ++ PyStr.lower b)%string.
Proof. induction a as [|c a IH]; simpl; [reflexivity | now rewrite IH]. Qed.

Lemma split_dots_nonempty s : split_dots s <> [].
Proof.
  destruct s as [|c s]; simpl; [discriminate|].
  destruct (Ascii.eqb c "."); [discriminate|].
  destruct (split_dots s); discriminate.
Qed.

Lemma split_dots_plain s : has_dot s = false -> split_dots s = [s].
Proof.
  induction s as [|c s IH]; simpl; [reflexivity|].
  destruct (Ascii.eqb c "."); simpl; [discriminate|].
  intros H. now rewrite IH.
Qed.

Lemma split_dots_app a b :
  exists parts,
    parts <> []
    /\ split_dots (a ++ String "." b) = parts ++ split_dots b.
Proof.
  induction a as [|c a (parts & Hne & IH)]; simpl.
  - exists [EmptyString]. split; [discriminate | reflexivity].
  - destruct (Ascii.eqb c ".").
    + exists (EmptyString :: parts). rewrite IH. split; [discriminate | reflexivity].
    + rewrite IH. destruct parts as [|h t]; [congruence|].
      exists (String c h :: t). split; [discriminate | reflexivity].
Qed.

Lemma last_app_nonempty {A} (l1 l2 : list A) d :
  l2 <> [] -> last (l1 ++ l2) d = last l2 d.
Proof.
  intros H. induction l1 as [|x l1 IH]; [reflexivity|].
  simpl app. rewrite <- IH. simpl.
  destruct (l1 ++ l2) eqn:E; [|reflexivity].
  apply app_eq_nil in E as [_ E]. contradiction.
Qed.

(** The suffix is the part of the name after its last dot, in lower
    case, and the whole name in lower case when it has no dot. *)
Lemma suffix_of_extension stem ext :
  has_dot ext = false ->
  suffix_of (stem ++ String "." ext) = PyStr.lower ext.
Proof.
  intros H. unfold suffix_of. rewrite lower_app.
  change (PyStr.lower (String "." ext)) with (String "."%char (PyStr.lower ext)).
  destruct (split_dots_app (PyStr.lower stem) (PyStr.lower ext)) as (parts & _ & ->).
  rewrite last_app_nonempty by apply split_dots_nonempty.
  rewrite split_dots_plain by (now rewrite has_dot_lower). reflexivity.
Qed.

Lemma suffix_of_plain name : has_dot name = false -> suffix_of name = PyStr.lower name.
Proof.
  intros H. unfold suffix_of.
  rewrite split_dots_plain by (now rewrite has_dot_lower). reflexivity.
Qed.

(** X13. [read_uploaded_file] chooses the reader by the part of the
    file name after its last dot, whatever its case; a file whose
    suffix is none of [txt], [docx] and [pdf] gives the empty text
    without any reader being used, so it cannot fail. A name without
    a dot is its own suffix. *)
Theorem upload_dispatch_by_suffix :
  forall (File : Type) (file_name : File -> string)
         (decode_utf8 docx2txt_process : File -> option string)
         (pdf_page_texts : File -> option (list string))
         (file : File) (stem ext : string),
    has_dot ext = false ->
    (file_name file = (stem ++ String "." ext)%string
     \/ (file_name file = ext)) ->
    suffix_of (file_name file) = PyStr.lower ext
    /\ (PyStr.lower ext = "txt" ->
        read_uploaded_file file_name decode_utf8 docx2txt_process pdf_page_texts file
        = decode_utf8 file)
    /\ (PyStr.lower ext = "docx" ->
        read_uploaded_file file_name decode_utf8 docx2txt_process pdf_page_texts file
        = docx2txt_process file)
    /\ (~ In (PyStr.lower ext) ["txt"; "docx"; "pdf"] ->
        read_uploaded_file file_name decode_utf8 docx2txt_process pdf_page_texts file
        = Some "").
Proof.
  intros File file_name decode_utf8 docx2txt_process pdf_page_texts file stem ext
    Hext Hname.
  assert (Hs : suffix_of (file_name file) = PyStr.lower ext).
  { destruct Hname as [-> | ->];
      [now apply suffix_of_extension | now apply suffix_of_plain]. }
  split; [exact Hs|]. unfold read_uploaded_file. rewrite Hs.
  split; [|split].
  - intros ->. reflexivity.
  - intros ->. reflexivity.
  - intros Hnone. simpl in Hnone.
    destruct (String.eqb_spec (PyStr.lower ext) "txt") as [E|_];
      [exfalso; intuition congruence|].
    destruct (String.eqb_spec (PyStr.lower ext) "docx") as [E|_];
      [exfalso; intuition congruence|].
    destruct (String.eqb_spec (PyStr.lower ext) "pdf") as [E|_];
      [exfalso; intuition congruence|].
    reflexivity.
Qed.

Lemma upload_dispatch_by_suffix_witness :
  read_uploaded_file (fun name : string => name)
    (reader_of [("notes.v2.TXT", "plain notes")])
    (fun _ => None) (fun _ => None) "notes.v2.TXT"
  = Some "plain notes"
  /\ read_uploaded_file (fun name : string => name)
       (fun _ => None) (fun _ => None) (fun _ => None) "archive.tar.gz"
     = Some "".
Proof.
  split.
  - rewrite (proj1 (proj2 (upload_dispatch_by_suffix string (fun name => name)
                             (reader_of [("notes.v2.TXT", "plain notes")])
                             (fun _ => None) (fun _ => None)
                             "notes.v2.TXT" "notes.v2" "TXT"
                             eq_refl (or_introl eq_refl)))); reflexivity.
  - apply (upload_dispatch_by_suffix string (fun name => name)
             (fun _ => None) (fun _ => None) (fun _ => None)
             "archive.tar.gz" "archive.tar" "gz" eq_refl (or_introl eq_refl)).
    vm_compute. intuition discriminate.
Defined.

Lemma string_app_nil_r (a : string) : (a ++ "")%string = a.
Proof. induction a; simpl; [reflexivity | now f_equal]. Qed.

Lemma join_nonempty_parts sep parts :
  Forall (fun p => p <> "") parts -> parts <> [] -> PyStr.join sep parts <> "".
Proof.
  intros Hall Hne. destruct Hall as [|p ps Hp Hps]; [congruence|].
  destruct ps as [|q ps]; simpl; [exact Hp|].
  destruct p; [congruence | discriminate].
Qed.

(** X14. The text read from a PDF is the texts of its pages that have
    some, joined by line feeds; it is empty exactly when no page has
    text. *)
Theorem pdf_text_empty_iff :
  forall (File : Type) (file_name : File -> string)
         (decode_utf8 docx2txt_process : File -> option string)
         (pdf_page_texts : File -> option (list string))
         (file : File) (pages : list string),
    suffix_of (file_name file) = "pdf" ->
    pdf_page_texts file = Some pages ->
    exists kept,
      kept = filter (fun page => negb (PyStr.is_empty page)) pages
      /\ read_uploaded_file file_name decode_utf8 docx2txt_process pdf_page_texts file
         = Some (PyStr.join PyStr.nl kept)
      /\ (forall first rest, kept = first :: rest ->
            PyStr.join PyStr.nl kept
            = (first ++ concat_lines rest)%string)
      /\ (PyStr.join PyStr.nl kept = "" <-> Forall (fun page => page = "") pages).
Proof.
  intros File file_name decode_utf8 docx2txt_process pdf_page_texts file pages
    Hs Hpages.
  unfold read_uploaded_file. rewrite Hs, Hpages. simpl.
  eexists. split; [reflexivity|]. split; [reflexivity|].
  set (kept := filter (fun text => negb (PyStr.is_empty text)) pages).
  assert (Hkept : Forall (fun p => p <> "") kept).
  { apply Forall_forall. intros p Hp. apply filter_In in Hp as [_ Hp].
    intros ->. discriminate. }
  split; [|split].
  - intros first rest ->. clear. revert first.
    induction rest as [|r rest IH]; intros first.
    + simpl. now rewrite string_app_nil_r.
    + rewrite join_cons by discriminate. rewrite IH. reflexivity.
  - intros Hempty. destruct kept as [|k ks] eqn:E.
    + apply Forall_forall. intros page Hin.
      destruct page as [|c page]; [reflexivity|]. exfalso.
      assert (Hk : In (String c page) kept).
      { apply filter_In. split; [assumption | reflexivity]. }
      rewrite E in Hk. contradiction.
    + exfalso. revert Hempty. apply join_nonempty_parts; [assumption | discriminate].
  - intros Hall. replace kept with (@nil string); [reflexivity|].
    unfold kept. clear kept Hkept Hpages.
    induction Hall as [|p ps -> _ IH]; simpl; [reflexivity | exact IH].
Qed.

Lemma pdf_text_empty_iff_witness :
  read_uploaded_file (fun name : string => name) (fun _ => None) (fun _ => None)
    (fun _ => Some [""; "page two"; ""; "page four"]) "scan.pdf"
  = Some (unlines ["page two"; "page four"])
  /\ unlines ["page two"; "page four"] <> "".
Proof.
  destruct (pdf_text_empty_iff string (fun name => name) (fun _ => None) (fun _ => None)
              (fun _ => Some [""; "page two"; ""; "page four"]) "scan.pdf"
              [""; "page two"; ""; "page four"] eq_refl eq_refl)
    as (kept & -> & Hread & _ & _).
  split; [exact Hread | vm_compute; discriminate].
Defined.
